(** * Hierarchical settings of pretix: [pretix/base/settings.py]

    A shallow embedding of [SettingsProxy] (the resolver with its lazily
    loaded cache) and of [SettingsSandbox] (the view that prefixes keys),
    with the Python values, the conversions [str], [int], [float],
    [json.dumps] and [json.loads] they call, and the properties of the
    resolution order, of the typed round trip and of the effects on the
    store and on the cache.

    What the model takes from Python: integers are unbounded and have no
    limit on the digits of their text; strings are sequences of code
    points below 256; floats are a parameter ([FloatOps]); the methods
    pass the state of the proxies along, a proxy holding the proxy of its
    parent.  The setting records and their store are not in the source
    file and are modelled from the specification. *)

From Stdlib Require Import ZArith String Ascii List Bool Lia.
From Stdlib Require Import Decimal DecimalString DecimalZ DecimalPos DecimalFacts.
From stdpp Require Import base option strings gmap.

Import ListNotations.
Set Warnings "-register-all".
Local Open Scope string_scope.
Local Open Scope Z_scope.

(** ** Exceptions *)

Inductive exn_class := TypeError | ValueError | OverflowError | JSONDecodeError.

(** An exception with its class and, where the source builds it, its
    message; the messages of the interpreter's own exceptions are not
    modelled ([None]). *)
Record exn := Exn { exn_cls : exn_class; exn_msg : option string }.

(** The outcome of a call: a value, an exception, or [Unmodelled] where
    the model does not follow Python: a decoded string with a code point
    above 255, the [str] of a container. *)
Inductive result (A : Type) :=
| Ok (a : A)
| Raise (e : exn)
| Unmodelled.
Arguments Ok {A} a.
Arguments Raise {A} e.
Arguments Unmodelled {A}.

Definition bind {A B} (r : result A) (k : A -> result B) : result B :=
  match r with
  | Ok a => k a
  | Raise e => Raise e
  | Unmodelled => Unmodelled
  end.

Definition of_option {A} (c : exn_class) (o : option A) : result A :=
  match o with
  | Some a => Ok a
  | None => Raise (Exn c None)
  end.

(** ** Python values *)

(** Python's [float] is kept abstract: the carrier, [repr] (which is also
    [str] on floats), [float(s)] on a string and the two conversions with
    integers.  [float(s)] raises [ValueError] on a malformed string and
    [float(z)] raises [OverflowError] on an integer that is too large
    (both [None] here); [int(f)] raises on a NaN or an infinity. *)
Class FloatOps := {
  float : Type;
  float_repr : float -> string;
  float_of_str : string -> option float;
  float_of_int : Z -> option float;
  int_of_float : float -> result Z
}.

Section Values.

Context {FO : FloatOps}.

(** The values the model covers: [None], [bool], [int], [float], [str]
    (code points below 256), [list], [tuple] and [dict] (its items in
    insertion order). *)
Inductive pyval :=
| VNone
| VBool (b : bool)
| VInt (z : Z)
| VFloat (f : float)
| VStr (s : string)
| VList (l : list pyval)
| VTuple (l : list pyval)
| VDict (d : list (pyval * pyval)).

(** The classes that can be passed as [as_type]; [TType] is the builtin
    [type] itself. *)
Inductive pytype :=
| TNoneType | TBool | TInt | TFloat | TStr | TList | TTuple | TDict | TType.

Definition pytype_eqb (a b : pytype) : bool :=
  match a, b with
  | TNoneType, TNoneType | TBool, TBool | TInt, TInt | TFloat, TFloat
  | TStr, TStr | TList, TList | TTuple, TTuple | TDict, TDict
  | TType, TType => true
  | _, _ => false
  end.

(** [type(v)] *)
Definition type_of (v : pyval) : pytype :=
  match v with
  | VNone => TNoneType
  | VBool _ => TBool
  | VInt _ => TInt
  | VFloat _ => TFloat
  | VStr _ => TStr
  | VList _ => TList
  | VTuple _ => TTuple
  | VDict _ => TDict
  end.

(** [isinstance(v, t)]: the class of [v] or one of its bases; [bool] is a
    subclass of [int], and no value of the model is a class. *)
Definition isinstance (v : pyval) (t : pytype) : bool :=
  match v, t with
  | VNone, TNoneType => true
  | VBool _, TBool => true
  | VBool _, TInt => true
  | VInt _, TInt => true
  | VFloat _, TFloat => true
  | VStr _, TStr => true
  | VList _, TList => true
  | VTuple _, TTuple => true
  | VDict _, TDict => true
  | _, _ => false
  end.

Definition type_name (t : pytype) : string :=
  match t with
  | TNoneType => "NoneType"
  | TBool => "bool"
  | TInt => "int"
  | TFloat => "float"
  | TStr => "str"
  | TList => "list"
  | TTuple => "tuple"
  | TDict => "dict"
  | TType => "type"
  end.

(** [str(t)] for a class [t] *)
Definition str_of_type (t : pytype) : string :=
  "<class '" ++ type_name t ++ "'>".

(** ** [str] and [int] *)

(** [str(z)] for an integer: its decimal digits, after [-] when it is
    negative. *)
Definition str_of_int (z : Z) : string :=
  NilZero.string_of_int (Z.to_int z).

(** [str(b)] for a boolean *)
Definition str_of_bool (b : bool) : string :=
  if b then "True" else "False".

Definition digit_of_ascii (c : ascii) : option (uint -> uint) :=
  match c with
  | "0"%char => Some D0 | "1"%char => Some D1 | "2"%char => Some D2
  | "3"%char => Some D3 | "4"%char => Some D4 | "5"%char => Some D5
  | "6"%char => Some D6 | "7"%char => Some D7 | "8"%char => Some D8
  | "9"%char => Some D9
  | _ => None
  end.

(** The digits of an integer literal: decimal digits with single
    underscores between them.  [after_digit] tells whether the previous
    character was a digit. *)
Fixpoint literal_digits (after_digit : bool) (s : string) : option uint :=
  match s with
  | EmptyString => if after_digit then Some Nil else None
  | String c s' =>
      if Ascii.eqb c "_"
      then (if after_digit then literal_digits false s' else None)
      else match digit_of_ascii c with
           | Some d => option_map d (literal_digits true s')
           | None => None
           end
  end.

(** The white space that [int] and [float] strip from a string, among
    the code points below 256: the white space of ASCII (9 to 13 and 32)
    and the two spaces outside ASCII (133 and 160).  The separators 28 to
    31, white space for [str.isspace], are not stripped. *)
Definition int_space (c : ascii) : bool :=
  let n := nat_of_ascii c in
  ((9 <=? n) && (n <=? 13) || (n =? 32) || (n =? 133) || (n =? 160))%nat.

Fixpoint lstrip (s : string) : string :=
  match s with
  | String c s' => if int_space c then lstrip s' else s
  | EmptyString => EmptyString
  end.

(** [rstrip] keeps a character when it is not a space or when something
    is kept after it. *)
Fixpoint rstrip (s : string) : string :=
  match s with
  | EmptyString => EmptyString
  | String c s' =>
      match rstrip s' with
      | EmptyString => if int_space c then EmptyString else String c EmptyString
      | r => String c r
      end
  end.

Definition strip (s : string) : string := rstrip (lstrip s).

(** [int(s)] for a string, base 10: surrounding white space, an optional
    sign, then the digits. *)
Definition int_of_str (s : string) : option Z :=
  match strip s with
  | String c r =>
      if Ascii.eqb c "+" then option_map Z.of_uint (literal_digits false r)
      else if Ascii.eqb c "-"
           then option_map (fun d => - Z.of_uint d) (literal_digits false r)
           else option_map Z.of_uint (literal_digits false (String c r))
  | EmptyString => None
  end.

(** ** [json.dumps] with its default options *)

Definition c_quote : ascii := ascii_of_nat 34.
Definition c_backslash : ascii := ascii_of_nat 92.

Definition hex_digit (n : nat) : ascii :=
  ascii_of_nat (if (n <? 10)%nat then 48 + n else 87 + n).

(** The replacement of one character by [ensure_ascii]: the short escapes,
    [\u00xx] for the other characters outside the printable ASCII range,
    the character itself otherwise. *)
Definition escape_char (c : ascii) : string :=
  let n := nat_of_ascii c in
  if (n =? 34)%nat then String c_backslash (String c_quote "")
  else if (n =? 92)%nat then String c_backslash (String c_backslash "")
  else if (n =? 8)%nat then String c_backslash "b"
  else if (n =? 12)%nat then String c_backslash "f"
  else if (n =? 10)%nat then String c_backslash "n"
  else if (n =? 13)%nat then String c_backslash "r"
  else if (n =? 9)%nat then String c_backslash "t"
  else if ((n <? 32) || (126 <? n))%nat
       then String c_backslash
              (String "u" (String "0" (String "0"
                 (String (hex_digit (n / 16)) (String (hex_digit (n mod 16)) "")))))
  else String c "".

Fixpoint escape_chars (s : string) : string :=
  match s with
  | EmptyString => EmptyString
  | String c s' => escape_char c ++ escape_chars s'
  end.

(** [encode_basestring_ascii] *)
Definition encode_basestring_ascii (s : string) : string :=
  String c_quote (escape_chars s ++ String c_quote "").

(** [floatstr]: the three special values have their JavaScript names. *)
Definition floatstr (f : float) : string :=
  let r := float_repr f in
  if String.eqb r "nan" then "NaN"
  else if String.eqb r "inf" then "Infinity"
  else if String.eqb r "-inf" then "-Infinity"
  else r.

(** The text of a dictionary key: strings as they are, numbers, booleans
    and [None] by their JSON text; any other key is a [TypeError]. *)
Definition json_key (k : pyval) : result string :=
  match k with
  | VStr s => Ok s
  | VFloat f => Ok (floatstr f)
  | VBool true => Ok "true"
  | VBool false => Ok "false"
  | VNone => Ok "null"
  | VInt z => Ok (str_of_int z)
  | _ => Raise (Exn TypeError None)
  end.

(** The texts of the items of an array or of an object, with [", "]
    before every item but the first. *)
Fixpoint join_items (first : bool) (l : list (result string)) : result string :=
  match l with
  | [] => Ok ""
  | x :: l' =>
      bind x (fun sx =>
      bind (join_items false l') (fun sl =>
      Ok ((if first then "" else ", ") ++ sx ++ sl)))
  end.

(** The text of one item of a dictionary, given the encoder of values. *)
Definition encode_pair (encode : pyval -> result string) (kv : pyval * pyval)
  : result string :=
  bind (json_key (fst kv)) (fun sk =>
  bind (encode (snd kv)) (fun sx =>
  Ok (encode_basestring_ascii sk ++ ": " ++ sx))).

(** The encoder: lists and tuples become arrays, dictionaries become
    objects with [": "] after each key. *)
Fixpoint json_encode (v : pyval) : result string :=
  match v with
  | VNone => Ok "null"
  | VBool true => Ok "true"
  | VBool false => Ok "false"
  | VInt z => Ok (str_of_int z)
  | VFloat f => Ok (floatstr f)
  | VStr s => Ok (encode_basestring_ascii s)
  | VList l | VTuple l =>
      bind (join_items true (map json_encode l)) (fun s => Ok ("[" ++ s ++ "]"))
  | VDict d =>
      bind (join_items true (map (encode_pair json_encode) d))
           (fun s => Ok ("{" ++ s ++ "}"))
  end.

(** [json.dumps(v)] *)
Definition json_dumps (v : pyval) : result string := json_encode v.

(** ** [json.loads] *)

Definition json_error {A} : result A := Raise (Exn JSONDecodeError None).

Definition is_json_ws (c : ascii) : bool :=
  let n := nat_of_ascii c in
  ((n =? 32) || (n =? 9) || (n =? 10) || (n =? 13))%nat.

Fixpoint skip_ws (s : string) : string :=
  match s with
  | String c s' => if is_json_ws c then skip_ws s' else s
  | EmptyString => EmptyString
  end.

Definition is_digit (c : ascii) : bool :=
  let n := nat_of_ascii c in ((48 <=? n) && (n <=? 57))%nat.

Definition hex_value (c : ascii) : option nat :=
  let n := nat_of_ascii c in
  if ((48 <=? n) && (n <=? 57))%nat then Some (n - 48)%nat
  else if ((97 <=? n) && (n <=? 102))%nat then Some (n - 87)%nat
  else if ((65 <=? n) && (n <=? 70))%nat then Some (n - 55)%nat
  else None.

(** The four hexadecimal digits of a [\uXXXX] escape. *)
Definition decode_uXXXX (h1 h2 h3 h4 : ascii) : option nat :=
  match hex_value h1, hex_value h2, hex_value h3, hex_value h4 with
  | Some a, Some b, Some c, Some d => Some (((a * 16 + b) * 16 + c) * 16 + d)%nat
  | _, _, _, _ => None
  end.

(** The character named by a short escape. *)
Definition backslash_char (e : ascii) : option ascii :=
  let n := nat_of_ascii e in
  if (n =? 34)%nat then Some c_quote
  else if (n =? 92)%nat then Some c_backslash
  else if (n =? 47)%nat then Some "/"%char
  else if (n =? 98)%nat then Some (ascii_of_nat 8)
  else if (n =? 102)%nat then Some (ascii_of_nat 12)
  else if (n =? 110)%nat then Some (ascii_of_nat 10)
  else if (n =? 114)%nat then Some (ascii_of_nat 13)
  else if (n =? 116)%nat then Some (ascii_of_nat 9)
  else None.

Definition push_char (c : ascii) (r : result (string * string))
  : result (string * string) :=
  bind r (fun p => Ok (String c (fst p), snd p)).

(** [scanstring], entered after the opening quote: the decoded string and
    the text after the closing quote.  A raw control character is an
    error (strict mode); an escape that names a code point above 255 has
    no string in the model to denote it. *)
Fixpoint scanstring (s : string) : result (string * string) :=
  match s with
  | EmptyString => json_error
  | String c r =>
      if Ascii.eqb c c_quote then Ok (EmptyString, r)
      else if Ascii.eqb c c_backslash then
        match r with
        | EmptyString => json_error
        | String e r1 =>
            if Ascii.eqb e "u" then
              match r1 with
              | String h1 (String h2 (String h3 (String h4 r2))) =>
                  match decode_uXXXX h1 h2 h3 h4 with
                  | Some n =>
                      if (n <? 256)%nat then push_char (ascii_of_nat n) (scanstring r2)
                      else Unmodelled
                  | None => json_error
                  end
              | _ => json_error
              end
            else
              match backslash_char e with
              | Some ch => push_char ch (scanstring r1)
              | None => json_error
              end
        end
      else if (nat_of_ascii c <? 32)%nat then json_error
      else push_char c (scanstring r)
  end.

(** The longest prefix of decimal digits and what follows it. *)
Fixpoint span_digits (s : string) : string * string :=
  match s with
  | String c s' =>
      if is_digit c
      then let p := span_digits s' in (String c (fst p), snd p)
      else (EmptyString, s)
  | EmptyString => (EmptyString, EmptyString)
  end.

(** The fraction of a number: a dot and at least one digit. *)
Definition match_frac (s : string) : string * string :=
  match s with
  | String c (String d r) =>
      if Ascii.eqb c "." && is_digit d
      then let p := span_digits r in (String c (String d (fst p)), snd p)
      else (EmptyString, s)
  | _ => (EmptyString, s)
  end.

(** The exponent of a number: [e] or [E], an optional sign and at least
    one digit. *)
Definition match_exp (s : string) : string * string :=
  match s with
  | String e r =>
      if Ascii.eqb e "e" || Ascii.eqb e "E" then
        let sr := match r with
                  | String x r1 =>
                      if Ascii.eqb x "+" || Ascii.eqb x "-"
                      then (String x EmptyString, r1) else (EmptyString, r)
                  | EmptyString => (EmptyString, r)
                  end in
        let p := span_digits (snd sr) in
        match fst p with
        | EmptyString => (EmptyString, s)
        | ds => (String e (fst sr ++ ds), snd p)
        end
      else (EmptyString, s)
  | EmptyString => (EmptyString, s)
  end.

(** [match_number]: the text of the number, whether it has a fraction or
    an exponent, and what follows it. *)
Definition match_number (s : string) : option (string * bool * string) :=
  let sg := match s with
            | String c r => if Ascii.eqb c "-" then ("-", r) else (EmptyString, s)
            | EmptyString => (EmptyString, s)
            end in
  let ip := match snd sg with
            | String c r =>
                if Ascii.eqb c "0" then Some ("0", r)
                else if is_digit c
                     then let p := span_digits r in Some (String c (fst p), snd p)
                     else None
            | EmptyString => None
            end in
  match ip with
  | None => None
  | Some (int_part, s1) =>
      let fr := match_frac s1 in
      let ex := match_exp (snd fr) in
      Some (fst sg ++ int_part ++ fst fr ++ fst ex,
            negb (String.eqb (fst fr) EmptyString && String.eqb (fst ex) EmptyString),
            snd ex)
  end.

(** [dict(pairs)]: a later pair with the same key replaces the value and
    keeps the position of the first. *)
Fixpoint dict_set (d : list (string * pyval)) (k : string) (v : pyval)
  : list (string * pyval) :=
  match d with
  | [] => [(k, v)]
  | (k', v') :: d' =>
      if String.eqb k' k then (k', v) :: d' else (k', v') :: dict_set d' k v
  end.

Definition dict_of_pairs (l : list (string * pyval)) : pyval :=
  VDict (map (fun p => (VStr (fst p), snd p))
             (fold_left (fun d p => dict_set d (fst p) (snd p)) l [])).

(** [startswith] that returns the text after the prefix. *)
Fixpoint strip_prefix (p s : string) : option string :=
  match p, s with
  | EmptyString, _ => Some s
  | String a p', String b s' => if Ascii.eqb a b then strip_prefix p' s' else None
  | String _ _, EmptyString => None
  end.

(** A number or one of the constants [NaN], [Infinity], [-Infinity]. *)
Definition scan_number (s : string) : result (pyval * string) :=
  match match_number s with
  | Some (text, is_float, rest) =>
      if is_float
      then bind (of_option ValueError (float_of_str text)) (fun f => Ok (VFloat f, rest))
      else bind (of_option ValueError (int_of_str text)) (fun z => Ok (VInt z, rest))
  | None =>
      match strip_prefix "NaN" s, strip_prefix "Infinity" s, strip_prefix "-Infinity" s with
      | Some rest, _, _ =>
          bind (of_option ValueError (float_of_str "nan")) (fun f => Ok (VFloat f, rest))
      | _, Some rest, _ =>
          bind (of_option ValueError (float_of_str "inf")) (fun f => Ok (VFloat f, rest))
      | _, _, Some rest =>
          bind (of_option ValueError (float_of_str "-inf")) (fun f => Ok (VFloat f, rest))
      | _, _, _ => json_error
      end
  end.

(** [scan_once] with the array and object loops of [JSONArray] and
    [JSONObject].  Every call spends one unit of [fuel]; the decoder is
    started with more fuel than it can spend on its text (lemma
    [json_decode_fuel]), and would answer [Unmodelled] if the fuel ran
    out. *)
Fixpoint scan_once (fuel : nat) (s : string) : result (pyval * string) :=
  match fuel with
  | O => Unmodelled
  | S fuel' =>
      match s with
      | EmptyString => json_error
      | String c r =>
          if Ascii.eqb c c_quote then
            bind (scanstring r) (fun p => Ok (VStr (fst p), snd p))
          else if Ascii.eqb c "{" then
            match skip_ws r with
            | String q r1 =>
                if Ascii.eqb q "}" then Ok (VDict [], r1)
                else if Ascii.eqb q c_quote
                then bind (scan_pairs fuel' r1) (fun p => Ok (dict_of_pairs (fst p), snd p))
                else json_error
            | EmptyString => json_error
            end
          else if Ascii.eqb c "[" then
            match skip_ws r with
            | String q r1 =>
                if Ascii.eqb q "]" then Ok (VList [], r1)
                else bind (scan_items fuel' (String q r1)) (fun p =>
                       Ok (VList (fst p), snd p))
            | EmptyString => json_error
            end
          else
            match strip_prefix "null" s, strip_prefix "true" s, strip_prefix "false" s with
            | Some rest, _, _ => Ok (VNone, rest)
            | _, Some rest, _ => Ok (VBool true, rest)
            | _, _, Some rest => Ok (VBool false, rest)
            | _, _, _ => scan_number s
            end
      end
  end

(** The items of an array, entered at the first character of an item. *)
with scan_items (fuel : nat) (s : string) : result (list pyval * string) :=
  match fuel with
  | O => Unmodelled
  | S fuel' =>
      bind (scan_once fuel' s) (fun p =>
        match skip_ws (snd p) with
        | String c r =>
            if Ascii.eqb c "]" then Ok ([fst p], r)
            else if Ascii.eqb c ","
            then bind (scan_items fuel' (skip_ws r)) (fun q =>
                   Ok (fst p :: fst q, snd q))
            else json_error
        | EmptyString => json_error
        end)
  end

(** The pairs of an object, entered after the opening quote of a key. *)
with scan_pairs (fuel : nat) (s : string) : result (list (string * pyval) * string) :=
  match fuel with
  | O => Unmodelled
  | S fuel' =>
      bind (scanstring s) (fun k =>
        match skip_ws (snd k) with
        | String c r =>
            if Ascii.eqb c ":" then
              bind (scan_once fuel' (skip_ws r)) (fun p =>
                match skip_ws (snd p) with
                | String c1 r1 =>
                    if Ascii.eqb c1 "}" then Ok ([(fst k, fst p)], r1)
                    else if Ascii.eqb c1 "," then
                      match skip_ws r1 with
                      | String q r2 =>
                          if Ascii.eqb q c_quote
                          then bind (scan_pairs fuel' r2) (fun q =>
                                 Ok ((fst k, fst p) :: fst q, snd q))
                          else json_error
                      | EmptyString => json_error
                      end
                    else json_error
                | EmptyString => json_error
                end)
            else json_error
        | EmptyString => json_error
        end)
  end.

(** [JSONDecoder.decode]: white space, one value, white space, the end. *)
Definition json_decode (s : string) : result pyval :=
  bind (scan_once (S (2 * String.length s)) (skip_ws s)) (fun p =>
    match skip_ws (snd p) with
    | EmptyString => Ok (fst p)
    | _ => json_error
    end).

(** [json.loads(v)]: a [TypeError] unless [v] is a string. *)
Definition json_loads (v : pyval) : result pyval :=
  match v with
  | VStr s => json_decode s
  | _ => Raise (Exn TypeError None)
  end.

(** [int(v)] *)
Definition py_int (v : pyval) : result pyval :=
  match v with
  | VStr s => bind (of_option ValueError (int_of_str s)) (fun z => Ok (VInt z))
  | VInt z => Ok (VInt z)
  | VBool b => Ok (VInt (if b then 1 else 0))
  | VFloat f => bind (int_of_float f) (fun z => Ok (VInt z))
  | _ => Raise (Exn TypeError None)
  end.

(** [float(v)] *)
Definition py_float (v : pyval) : result pyval :=
  match v with
  | VStr s => bind (of_option ValueError (float_of_str s)) (fun f => Ok (VFloat f))
  | VInt z => bind (of_option OverflowError (float_of_int z)) (fun f => Ok (VFloat f))
  | VBool b =>
      bind (of_option OverflowError (float_of_int (if b then 1 else 0)))
           (fun f => Ok (VFloat f))
  | VFloat f => Ok (VFloat f)
  | _ => Raise (Exn TypeError None)
  end.

(** [str(v)] for the numbers, the booleans, the strings and [None]; the
    [repr] of the containers is not modelled. *)
Definition py_str (v : pyval) : result string :=
  match v with
  | VNone => Ok "None"
  | VBool b => Ok (str_of_bool b)
  | VInt z => Ok (str_of_int z)
  | VFloat f => Ok (float_repr f)
  | VStr s => Ok s
  | _ => Unmodelled
  end.

(** [v == s] for a string [s]: only an equal string is equal to it. *)
Definition eq_str (v : pyval) (s : string) : bool :=
  match v with
  | VStr s' => String.eqb s' s
  | _ => false
  end.

(** [v is None] *)
Definition is_none (v : pyval) : bool :=
  match v with
  | VNone => true
  | _ => false
  end.

End Values.

(** ** The built-in defaults *)

Definition DEFAULTS : gmap string string :=
  list_to_map
    [ ("user_mail_required", "False");
      ("max_items_per_order", "10");
      ("attendee_names_asked", "True");
      ("attendee_names_required", "False") ].

(** ** The setting records and their store *)

(** Modelled from the spec: the setting model class and the record store
    are not part of the source file.  A record has a string key and a
    string value; its identity is what a clone shares with the record it
    was cloned from.  The store of an owner is the sequence of its
    current records. *)
Record Setting := mkSetting {
  setting_id : nat;
  setting_key : string;
  setting_value : string
}.

(** [s.value = v] *)
Definition set_value (s : Setting) (v : string) : Setting :=
  {| setting_id := setting_id s; setting_key := setting_key s; setting_value := v |}.

(** Modelled from the spec: [clone()] gives a new record that carries the
    identity, the key and the value of the old one; nothing is persisted
    before [save()]. *)
Definition clone (s : Setting) : Setting :=
  {| setting_id := setting_id s;
     setting_key := setting_key s;
     setting_value := setting_value s |}.

Definition same_id (s r : Setting) : bool := Nat.eqb (setting_id s) (setting_id r).

(** Modelled from the spec: [save()] persists the record; the version of
    the same identity that was current is superseded in place, a record
    with a new identity is added at the end. *)
Fixpoint save (s : Setting) (store : list Setting) : list Setting :=
  match store with
  | [] => [s]
  | r :: store' => if same_id s r then s :: store' else r :: save s store'
  end.

(** Modelled from the spec: [delete()] removes the record from the current
    records of its owner. *)
Definition delete_record (s : Setting) (store : list Setting) : list Setting :=
  List.filter (fun r => negb (same_id s r)) store.

(** An identity that no current record of the store has. *)
Definition fresh_id (store : list Setting) : nat :=
  S (fold_right (fun r m => Nat.max (setting_id r) m) O store).

(** ** [class SettingsProxy] *)

Module SettingsProxy.

(** The proxy of one owner: [_obj] is the owner, seen as its current
    records; [_parent] is the proxy that [self._parent.settings] gives;
    [_cached_obj] is [None] until the first call of [_cache]. *)
Inductive t := Build {
  _obj : list Setting;
  _parent : option t;
  _cached_obj : option (gmap string Setting)
}.

(** [self._type(object=self._obj, key=key)]: a new record of this owner. *)
Definition _type (object : list Setting) (key : string) : Setting :=
  {| setting_id := fresh_id object; setting_key := key; setting_value := "" |}.

(** The dictionary [_cache] builds from the current records: a later
    record replaces an earlier one with the same key. *)
Definition load (records : list Setting) : gmap string Setting :=
  fold_left (fun c setting => <[setting_key setting := setting]> c) records ∅.

(** [_cache()]: the dictionary it returns and the proxy afterwards. *)
Definition _cache (self : t) : gmap string Setting * t :=
  match _cached_obj self with
  | None =>
      let c := load (_obj self) in
      (c, {| _obj := _obj self; _parent := _parent self; _cached_obj := Some c |})
  | Some c => (c, self)
  end.

(** [__init__(obj, parent, type)]: nothing is loaded yet. *)
Definition __init__ (obj : list Setting) (parent : option t) : t :=
  {| _obj := obj; _parent := parent; _cached_obj := None |}.

Section WithFloat.

Context {FO : FloatOps}.

(** [_unserialize(value, as_type)]: the tests in the order of the
    source. *)
Definition _unserialize (value : pyval) (as_type : pytype) : result pyval :=
  if isinstance value as_type then Ok value
  else if pytype_eqb as_type TInt then py_int value
  else if pytype_eqb as_type TFloat then py_float value
  else if pytype_eqb as_type TDict || pytype_eqb as_type TList then json_loads value
  else if pytype_eqb as_type TBool then Ok (VBool (eq_str value "True"))
  else Ok value.

(** [_serialize(value)]: a string as it is, [str] of a number or a
    boolean, the JSON text of a list, a [TypeError] for the rest. *)
Definition _serialize (value : pyval) : result string :=
  match value with
  | VStr s => Ok s
  | _ =>
      if isinstance value TInt || isinstance value TFloat || isinstance value TBool
      then py_str value
      else if isinstance value TList || isinstance value TBool
      then json_dumps value
      else Raise (Exn TypeError
                    (Some ("Unable to serialize " ++ str_of_type (type_of value)
                           ++ " into a setting.")))
  end.

(** [get(key, default, as_type)]: the result and the proxy afterwards
    (the caches that were read are loaded).  The parent is asked with the
    defaults of its own [get]: no default, [as_type=str]. *)
Fixpoint get (self : t) (key : string) (default : pyval) (as_type : pytype)
  : result pyval * t :=
  let (cache, self1) := _cache self in
  match cache !! key with
  | Some s => (_unserialize (VStr (setting_value s)) as_type, self1)
  | None =>
      let (value, parent1) :=
        match _parent self with
        | Some parent =>
            let (r, parent1) := get parent key VNone TStr in (r, Some parent1)
        | None => (Ok VNone, None)
        end in
      (bind value (fun value =>
         let otherwise :=
           if is_none value && negb (is_none default)
           then _unserialize default as_type
           else _unserialize value as_type in
         match DEFAULTS !! key with
         | Some d => if is_none value then _unserialize (VStr d) as_type else otherwise
         | None => otherwise
         end),
       {| _obj := _obj self1; _parent := parent1; _cached_obj := _cached_obj self1 |})
  end.

(** [self[key]] and [self.key] *)
Definition __getitem__ (self : t) (key : string) : result pyval * t :=
  get self key VNone TStr.

(** [__getattr__(key)], which Python calls for an attribute that the
    object and its class do not have. *)
Definition __getattr__ (self : t) (key : string) : result pyval * t :=
  get self key VNone TStr.

(** [set(key, value)]: [None] and the proxy afterwards, or the exception
    of [_serialize] with nothing saved. *)
Definition set (self : t) (key : string) (value : pyval) : result unit * t :=
  let (cache, self1) := _cache self in
  let s := match cache !! key with
           | Some s => clone s
           | None => _type (_obj self1) key
           end in
  match _serialize value with
  | Ok v =>
      let s := set_value s v in
      (Ok tt, {| _obj := save s (_obj self1);
                 _parent := _parent self1;
                 _cached_obj := Some (<[key := s]> cache) |})
  | Raise e => (Raise e, self1)
  | Unmodelled => (Unmodelled, self1)
  end.

Definition __setitem__ (self : t) (key : string) (value : pyval) : result unit * t :=
  set self key value.

End WithFloat.

(** [del self[key]] *)
Definition __delitem__ (self : t) (key : string) : t :=
  let (cache, self1) := _cache self in
  match cache !! key with
  | Some s =>
      {| _obj := delete_record s (_obj self1);
         _parent := _parent self1;
         _cached_obj := Some (delete key cache) |}
  | None => self1
  end.

End SettingsProxy.

(** ** [class SettingsSandbox] *)

Module SettingsSandbox.

(** [_event] is the proxy that [self._event.settings] gives. *)
Record t := Build {
  _event : SettingsProxy.t;
  _type : string;
  _key : string
}.

(** [__init__(type, key, event)] *)
Definition __init__ (type key : string) (event : SettingsProxy.t) : t :=
  {| _event := event; _type := type; _key := key |}.

Definition with_event (self : t) (settings : SettingsProxy.t) : t :=
  {| _event := settings; _type := _type self; _key := _key self |}.

Definition _convert_key (self : t) (key : string) : string :=
  _type self ++ "_" ++ _key self ++ "_" ++ key.

(** [del self[key]] and [del self.key] *)
Definition __delitem__ (self : t) (key : string) : t :=
  with_event self (SettingsProxy.__delitem__ (_event self) (_convert_key self key)).

(** [__delattr__(key)]: the same statement as [__delitem__], for every
    name. *)
Definition __delattr__ (self : t) (key : string) : t :=
  with_event self (SettingsProxy.__delitem__ (_event self) (_convert_key self key)).

Section WithFloat.

Context {FO : FloatOps}.

(** [get(key, default, as_type)]: the proxy is called with [as_type=type],
    the builtin, whatever [as_type] the caller gave. *)
Definition get (self : t) (key : string) (default : pyval) (as_type : pytype)
  : result pyval * t :=
  let (r, settings) :=
    SettingsProxy.get (_event self) (_convert_key self key) default TType in
  (r, with_event self settings).

Definition __getitem__ (self : t) (item : string) : result pyval * t :=
  get self item VNone TStr.

Definition __getattr__ (self : t) (item : string) : result pyval * t :=
  get self item VNone TStr.

Definition set (self : t) (key : string) (value : pyval) : result unit * t :=
  let (r, settings) := SettingsProxy.set (_event self) (_convert_key self key) value in
  (r, with_event self settings).

Definition __setitem__ (self : t) (key : string) (value : pyval) : result unit * t :=
  set self key value.

End WithFloat.

End SettingsSandbox.

(** ** Attribute access on the two classes *)

(** Python calls [__setattr__] and [__delattr__] of the class for every
    assignment to and every deletion of an attribute, and [__getattr__]
    only when the ordinary lookup finds nothing: neither an attribute of
    the instance nor one of the class.  [object.__setattr__] and
    [object.__delattr__], which the methods reach through [super()], work
    on the attributes of the instance. *)

(** What reading an attribute gives: a value, a method of the class, or
    one of the fields that [__init__] sets (the objects they hold are not
    values of the model). *)
Inductive attribute {FO : FloatOps} :=
| AValue (v : pyval)
| AMethod (name : string)
| AField (name : string).

(** The outcome of an operation on attributes: as [result], with the
    [AttributeError] of [object.__delattr__]. *)
Inductive outcome (A : Type) :=
| Done (a : A)
| Raised (e : exn)
| AttributeError
| Beyond.
Arguments Done {A} a.
Arguments Raised {A} e.
Arguments AttributeError {A}.
Arguments Beyond {A}.

Definition of_result {A} (r : result A) : outcome A :=
  match r with
  | Ok a => Done a
  | Raise e => Raised e
  | Unmodelled => Beyond
  end.

(** [name in names] *)
Definition among (names : list string) (name : string) : bool :=
  existsb (String.eqb name) names.

(** [key.startswith('_')] *)
Definition starts_with_underscore (key : string) : bool := String.prefix "_" key.

(** The names with two leading underscores: the special attributes of
    [object] are among them, and the model does not follow them. *)
Definition is_dunder (key : string) : bool := String.prefix "__" key.

Module ProxyObject.

Section WithFloat.

Context {FO : FloatOps}.

(** A [SettingsProxy] with the attributes of the instance: [proxy] holds
    the fields [_obj], [_parent], [_cached_obj] and [_type];
    [attributes] holds every other attribute of the instance. *)
Record t := Build {
  proxy : SettingsProxy.t;
  attributes : gmap string pyval
}.

Definition fields : list string := ["_obj"; "_parent"; "_cached_obj"; "_type"].

(** The functions of the class whose name has one leading underscore or
    none. *)
Definition methods : list string :=
  ["_cache"; "_unserialize"; "_serialize"; "get"; "set"].

Definition with_proxy (self : t) (p : SettingsProxy.t) : t :=
  {| proxy := p; attributes := attributes self |}.

(** [SettingsProxy(obj, parent, type)] *)
Definition __init__ (obj : list Setting) (parent : option SettingsProxy.t) : t :=
  {| proxy := SettingsProxy.__init__ obj parent; attributes := ∅ |}.

(** [object.__setattr__(self, key, value)] for a name that is not
    special, not a field and not a function of the class: the value
    becomes an attribute of the instance. *)
Definition object_setattr (self : t) (key : string) (value : pyval) : outcome unit * t :=
  if is_dunder key || among fields key || among methods key then (Beyond, self)
  else (Done tt, {| proxy := proxy self; attributes := <[key := value]> (attributes self) |}).

(** [object.__delattr__(self, key)]: the attribute of the instance is
    removed; without one, [AttributeError]. *)
Definition object_delattr (self : t) (key : string) : outcome unit * t :=
  if is_dunder key || among fields key || among methods key then (Beyond, self)
  else match attributes self !! key with
       | Some _ =>
           (Done tt, {| proxy := proxy self; attributes := delete key (attributes self) |})
       | None => (AttributeError, self)
       end.

Definition __setattr__ (self : t) (key : string) (value : pyval) : outcome unit * t :=
  if starts_with_underscore key then object_setattr self key value
  else let (r, p) := SettingsProxy.set (proxy self) key value in
       (of_result r, with_proxy self p).

Definition __delattr__ (self : t) (key : string) : outcome unit * t :=
  if starts_with_underscore key then object_delattr self key
  else (Done tt, with_proxy self (SettingsProxy.__delitem__ (proxy self) key)).

(** [self.key]: the attributes of the instance, then the functions of
    the class, then [__getattr__]. *)
Definition getattr (self : t) (key : string) : outcome attribute * t :=
  if is_dunder key then (Beyond, self)
  else if among fields key then (Done (AField key), self)
  else match attributes self !! key with
       | Some v => (Done (AValue v), self)
       | None =>
           if among methods key then (Done (AMethod key), self)
           else let (r, p) := SettingsProxy.__getattr__ (proxy self) key in
                (of_result (bind r (fun v => Ok (AValue v))), with_proxy self p)
       end.

End WithFloat.

End ProxyObject.

Module SandboxObject.

Section WithFloat.

Context {FO : FloatOps}.

(** A [SettingsSandbox] with the attributes of the instance: [view] holds
    the fields [_event], [_type] and [_key]. *)
Record t := Build {
  view : SettingsSandbox.t;
  attributes : gmap string pyval
}.

Definition fields : list string := ["_event"; "_type"; "_key"].

Definition methods : list string := ["_convert_key"; "get"; "set"].

Definition with_view (self : t) (v : SettingsSandbox.t) : t :=
  {| view := v; attributes := attributes self |}.

(** [SettingsSandbox(type, key, event)] *)
Definition __init__ (type key : string) (event : SettingsProxy.t) : t :=
  {| view := SettingsSandbox.__init__ type key event; attributes := ∅ |}.

Definition object_setattr (self : t) (key : string) (value : pyval) : outcome unit * t :=
  if is_dunder key || among fields key || among methods key then (Beyond, self)
  else (Done tt, {| view := view self; attributes := <[key := value]> (attributes self) |}).

Definition __setattr__ (self : t) (key : string) (value : pyval) : outcome unit * t :=
  if starts_with_underscore key then object_setattr self key value
  else let (r, v) := SettingsSandbox.set (view self) key value in
       (of_result r, with_view self v).

(** [__delattr__] has no test on the name. *)
Definition __delattr__ (self : t) (key : string) : outcome unit * t :=
  (Done tt, with_view self (SettingsSandbox.__delattr__ (view self) key)).

Definition getattr (self : t) (key : string) : outcome attribute * t :=
  if is_dunder key then (Beyond, self)
  else if among fields key then (Done (AField key), self)
  else match attributes self !! key with
       | Some v => (Done (AValue v), self)
       | None =>
           if among methods key then (Done (AMethod key), self)
           else let (r, v) := SettingsSandbox.__getattr__ (view self) key in
                (of_result (bind r (fun v => Ok (AValue v))), with_view self v)
       end.

End WithFloat.

End SandboxObject.

(** ** What the statements speak about *)

(** The text without a final [.0]. *)
Definition drop_dot_zero (s : string) : string :=
  match rev (list_ascii_of_string s) with
  | "0"%char :: "."%char :: r => string_of_list_ascii (rev r)
  | _ => s
  end.

(** An instance of the float interface on which the model can be run:
    the floats with an integral value of small magnitude, which Python
    prints as the integer followed by [.0]; no other float exists in it,
    and [float] refuses the text of any other number. *)
Definition integral_floats : FloatOps :=
  {| float := Z;
     float_repr := fun z => str_of_int z ++ ".0";
     float_of_str := fun s => int_of_str (drop_dot_zero (strip s));
     float_of_int := Some;
     int_of_float := Ok |}.

Section Reading.

Context {FO : FloatOps}.

(** The dictionary [self._cache()] returns. *)
Definition cache_of (self : SettingsProxy.t) : gmap string Setting :=
  fst (SettingsProxy._cache self).

(** The value of the nearest record for [key] on the way from [self] up
    the chain of parents. *)
Fixpoint chain_lookup (self : SettingsProxy.t) (key : string) : option string :=
  match cache_of self !! key with
  | Some s => Some (setting_value s)
  | None =>
      match SettingsProxy._parent self with
      | Some parent => chain_lookup parent key
      | None => None
      end
  end.

(** What is left when no owner of the chain has a record: the built-in
    default, then the default of the caller, then [None]. *)
Definition last_resort (key : string) (default : pyval) (as_type : pytype)
  : result pyval :=
  match DEFAULTS !! key with
  | Some d => SettingsProxy._unserialize (VStr d) as_type
  | None =>
      if is_none default then SettingsProxy._unserialize VNone as_type
      else SettingsProxy._unserialize default as_type
  end.

(** A raw value: a string, or [None] when there is none. *)
Definition raw (o : option string) : pyval :=
  match o with
  | Some v => VStr v
  | None => VNone
  end.

(** The proxy with the cache of every owner of the chain loaded: the
    records and the cache contents that can be observed. *)
Fixpoint loaded (self : SettingsProxy.t) : SettingsProxy.t :=
  {| SettingsProxy._obj := SettingsProxy._obj self;
     SettingsProxy._parent :=
       match SettingsProxy._parent self with
       | Some parent => Some (loaded parent)
       | None => None
       end;
     SettingsProxy._cached_obj := Some (cache_of self) |}.

(** The value the parent hands down, and the parent afterwards. *)
Definition ask_parent (self : SettingsProxy.t) (key : string)
  : result pyval * option SettingsProxy.t :=
  match SettingsProxy._parent self with
  | Some parent =>
      (fst (SettingsProxy.get parent key VNone TStr),
       Some (snd (SettingsProxy.get parent key VNone TStr)))
  | None => (Ok VNone, None)
  end.

End Reading.

(** An organizer with two records and one of its events, whose only
    record is a list; no cache is loaded yet. *)
Definition organizer_settings : SettingsProxy.t :=
  {| SettingsProxy._obj :=
       [mkSetting 1 "contact_mail" "info@example.org"; mkSetting 2 "show_times" "True"];
     SettingsProxy._parent := None;
     SettingsProxy._cached_obj := None |}.

Definition event_settings : SettingsProxy.t :=
  {| SettingsProxy._obj := [mkSetting 3 "presale_days" "[1, 2]"];
     SettingsProxy._parent := Some organizer_settings;
     SettingsProxy._cached_obj := None |}.

(** The owner [E] of the scenario with a view of scope [plugin] and
    sub-key [foo], and an event that has a record under a prefixed key. *)
Definition plugin_event : SettingsProxy.t :=
  {| SettingsProxy._obj := [mkSetting 4 "plugin_foo_limit" "5"];
     SettingsProxy._parent := Some organizer_settings;
     SettingsProxy._cached_obj := None |}.

Definition plugin_view : SettingsSandbox.t :=
  {| SettingsSandbox._event := plugin_event;
     SettingsSandbox._type := "plugin";
     SettingsSandbox._key := "foo" |}.

(** The types [set] accepts: the tests of [_serialize]. *)
Definition supported {FO : FloatOps} (value : pyval) : bool :=
  isinstance value TStr || isinstance value TInt || isinstance value TFloat
  || isinstance value TBool || isinstance value TList.

(** The [repr] of a float that the decoder reads as one float: [nan],
    [inf], [-inf], or a number with a fraction or an exponent. *)
Definition json_float_text (r : string) : bool :=
  String.eqb r "nan" || String.eqb r "inf" || String.eqb r "-inf"
  || match match_number r with
     | Some (_, true, EmptyString) => true
     | _ => false
     end.

(** No string occurs twice. *)
Fixpoint distinct (l : list string) : bool :=
  match l with
  | [] => true
  | k :: l' => negb (existsb (String.eqb k) l') && distinct l'
  end.

Definition is_str {FO : FloatOps} (v : pyval) : bool :=
  match v with
  | VStr _ => true
  | _ => false
  end.

(** The string of a key that is a string. *)
Definition key_text {FO : FloatOps} (k : pyval) : string :=
  match k with
  | VStr s => s
  | _ => EmptyString
  end.

(** The values a JSON text gives back as they were: [None], booleans,
    integers, strings, the floats whose [repr] is read back as the same
    float, lists of such values, and dictionaries of such values under
    distinct keys that are strings. *)
Fixpoint json_native {FO : FloatOps} (v : pyval) : Prop :=
  match v with
  | VNone | VBool _ | VInt _ | VStr _ => True
  | VFloat f =>
      float_of_str (float_repr f) = Some f /\ json_float_text (float_repr f) = true
  | VList l =>
      (fix all (l : list pyval) : Prop :=
         match l with
         | [] => True
         | x :: l' => json_native x /\ all l'
         end) l
  | VTuple _ => False
  | VDict d =>
      distinct (map (fun kv => key_text (fst kv)) d) = true /\
      (fix all (d : list (pyval * pyval)) : Prop :=
         match d with
         | [] => True
         | kv :: d' => is_str (fst kv) = true /\ json_native (snd kv) /\ all d'
         end) d
  end.

(** The values [set] followed by [get] gives back: strings, integers,
    booleans, the floats whose [repr] is read back by [float], and the
    lists that come back from JSON as they were. *)
Definition round_trips {FO : FloatOps} (v : pyval) : Prop :=
  match v with
  | VStr _ | VInt _ | VBool _ => True
  | VFloat f => float_of_str (float_repr f) = Some f
  | VList l => json_native (VList l)
  | _ => False
  end.

(** A list of values of every kind that comes back from JSON. *)
Definition sample_list : pyval (FO := integral_floats) :=
  VList [VInt (-12); VStr "a"; VList [VNone; VBool true];
         VFloat (FO := integral_floats) 3;
         VDict [(VStr "k", VInt 1); (VStr "l", VList [])]].

(** A list with a tuple in it. *)
Definition list_of_pairs {FO : FloatOps} : pyval :=
  VList [VTuple [VInt 1; VInt 2]].

(** Every character of [s] passes the test. *)
Fixpoint all_chars (P : ascii -> bool) (s : string) : bool :=
  match s with
  | EmptyString => true
  | String c s' => P c && all_chars P s'
  end.

(** What can follow a value in a text of the encoder: the end, a comma or
    a closing bracket. *)
Definition delimited (rest : string) : bool :=
  match rest with
  | EmptyString => true
  | String c _ => Ascii.eqb c "," || Ascii.eqb c "]" || Ascii.eqb c "}"
  end.

(** The text begins with a character that is neither white space nor the
    end of an array. *)
Definition head_ok (text : string) : Prop :=
  exists c t, text = String c t /\ is_json_ws c = false /\ Ascii.eqb c "]" = false.

(** [text] followed by a delimiter is scanned as [v], with fuel for its
    length. *)
Definition reads_back {FO : FloatOps} (v : pyval) (text : string) : Prop :=
  head_ok text /\
  forall fuel rest,
    (String.length text <= fuel)%nat -> delimited rest = true ->
    scan_once fuel (text ++ rest) = Ok (v, rest).

(** What the owners of the chain and the built-in table hold for a key:
    the value of the nearest record, else the built-in default. *)
Definition stored (self : SettingsProxy.t) (key : string) : option string :=
  match chain_lookup self key with
  | Some v => Some v
  | None => DEFAULTS !! key
  end.

(** Every entry of the cache is filed under the key of its record. *)
Definition keyed (self : SettingsProxy.t) : Prop :=
  forall key s, cache_of self !! key = Some s -> setting_key s = key.

(** The proxy of an owner whose parent is [parent]. *)
Definition with_parent (self parent : SettingsProxy.t) : SettingsProxy.t :=
  {| SettingsProxy._obj := SettingsProxy._obj self;
     SettingsProxy._parent := Some parent;
     SettingsProxy._cached_obj := SettingsProxy._cached_obj self |}.

(** The proxy when the records of the owner have become [records] behind
    its back. *)
Definition with_records (self : SettingsProxy.t) (records : list Setting)
  : SettingsProxy.t :=
  {| SettingsProxy._obj := records;
     SettingsProxy._parent := SettingsProxy._parent self;
     SettingsProxy._cached_obj := SettingsProxy._cached_obj self |}.

(** The string has no underscore. *)
Definition no_underscore (s : string) : bool :=
  all_chars (fun c => negb (Ascii.eqb c "_")) s.

(** The instance has attributes under private names only. *)
Definition private_attributes {FO : FloatOps} (attributes : gmap string pyval) : Prop :=
  forall key v, attributes !! key = Some v -> starts_with_underscore key = true.


(** A list that JSON cannot encode: a dictionary in it has a tuple as
    key. *)
Definition list_with_tuple_key {FO : FloatOps} : pyval :=
  VList [VDict [(VTuple [VInt 1; VInt 2], VInt 3)]].

(** * Properties *)

Section Properties.

Context {FO : FloatOps}.

Import SettingsProxy.

(** Induction along the chain of parents. *)
Lemma t_ind' (P : t -> Prop) :
  (forall obj cached, P (Build obj None cached)) ->
  (forall obj parent cached, P parent -> P (Build obj (Some parent) cached)) ->
  forall self, P self.
Proof.
  intros Hroot Hchild. fix IH 1. intros [obj [parent|] cached].
  - apply Hchild, IH.
  - apply Hroot.
Qed.

Lemma cache_snd_obj self : _obj (snd (_cache self)) = _obj self.
Proof. unfold _cache. destruct (_cached_obj self); reflexivity. Qed.

Lemma cache_snd_parent self : _parent (snd (_cache self)) = _parent self.
Proof. unfold _cache. destruct (_cached_obj self); reflexivity. Qed.

Lemma cache_snd_cached self : _cached_obj (snd (_cache self)) = Some (cache_of self).
Proof. destruct self as [obj parent [c|]]; reflexivity. Qed.

Lemma cache_pair self : _cache self = (cache_of self, snd (_cache self)).
Proof. unfold cache_of. destruct (_cache self); reflexivity. Qed.

(** [get] unfolded once. *)
Lemma get_eq self key default as_type :
  get self key default as_type =
  match cache_of self !! key with
  | Some s => (_unserialize (VStr (setting_value s)) as_type, snd (_cache self))
  | None =>
      (bind (fst (ask_parent self key)) (fun value =>
         let otherwise :=
           if is_none value && negb (is_none default)
           then _unserialize default as_type
           else _unserialize value as_type in
         match DEFAULTS !! key with
         | Some d => if is_none value then _unserialize (VStr d) as_type else otherwise
         | None => otherwise
         end),
       {| _obj := _obj self; _parent := snd (ask_parent self key);
          _cached_obj := Some (cache_of self) |})
  end.
Proof.
  destruct self as [obj parent cached]. cbn [get].
  rewrite (cache_pair (Build obj parent cached)).
  destruct (cache_of (Build obj parent cached) !! key); [reflexivity|].
  unfold ask_parent. cbn [_parent].
  rewrite cache_snd_obj, cache_snd_cached. cbn [_obj].
  destruct parent as [parent|]; [|reflexivity].
  destruct (get parent key VNone TStr); reflexivity.
Qed.

(** Asked as the parent is asked, [get] gives the nearest record of the
    chain as a string, else the built-in default, else [None]. *)
Lemma get_raw self key :
  fst (get self key VNone TStr) =
  Ok (raw (match chain_lookup self key with
           | Some v => Some v
           | None => DEFAULTS !! key
           end)).
Proof.
  induction self as [obj cached | obj parent cached IH] using t_ind';
    rewrite get_eq; cbn [chain_lookup];
    destruct (cache_of _ !! key) as [s|]; try reflexivity;
    unfold ask_parent; cbn [_parent fst bind].
  - destruct (DEFAULTS !! key); reflexivity.
  - rewrite IH. cbn [bind].
    destruct (chain_lookup parent key) as [v|]; cbn [raw is_none].
    + destruct (DEFAULTS !! key); reflexivity.
    + destruct (DEFAULTS !! key); reflexivity.
Qed.

(** The nearest record of the chain decides; without one, what is left. *)
Lemma get_chain self key default as_type :
  fst (get self key default as_type) =
  match chain_lookup self key with
  | Some v => _unserialize (VStr v) as_type
  | None => last_resort key default as_type
  end.
Proof.
  rewrite get_eq. destruct self as [obj parent cached]. cbn [chain_lookup].
  destruct (cache_of _ !! key) as [s|]; [reflexivity|].
  unfold ask_parent, last_resort. cbn [_parent fst].
  destruct parent as [parent|]; cbn [fst bind is_none andb].
  - rewrite get_raw. cbn [bind].
    destruct (chain_lookup parent key) as [v|]; cbn [raw is_none andb].
    + destruct (DEFAULTS !! key); reflexivity.
    + destruct (DEFAULTS !! key) as [d|]; cbn [raw is_none andb]; [reflexivity|].
      destruct default; reflexivity.
  - destruct (DEFAULTS !! key); [reflexivity|]. destruct default; reflexivity.
Qed.

(** C1: [get(key, default, as_type)] answers from the local cache when
    the key is cached, and then leaves the parent alone; else it asks the
    parent, if there is one, for the raw string; when that gives a value
    it is unserialized, and when it gives none the built-in default is
    unserialized, else the non-null default of the caller, else [None]. *)
Theorem get_resolution_order self key default as_type :
  exists handed_down : option string,
    match _parent self with
    | Some parent => fst (get parent key VNone TStr) = Ok (raw handed_down)
    | None => handed_down = None
    end /\
    (forall s, cache_of self !! key = Some s ->
               snd (get self key default as_type) = snd (_cache self)) /\
    fst (get self key default as_type) =
    match cache_of self !! key with
    | Some s => _unserialize (VStr (setting_value s)) as_type
    | None =>
        match handed_down with
        | Some v => _unserialize (VStr v) as_type
        | None =>
            match DEFAULTS !! key with
            | Some d => _unserialize (VStr d) as_type
            | None =>
                if is_none default then _unserialize VNone as_type
                else _unserialize default as_type
            end
        end
    end.
Proof.
  assert (Hlocal : forall s, cache_of self !! key = Some s ->
                             snd (get self key default as_type) = snd (_cache self)).
  { intros s Hs. rewrite get_eq, Hs. reflexivity. }
  destruct (_parent self) as [parent|] eqn:Hparent.
  - exists (match chain_lookup parent key with
            | Some v => Some v
            | None => DEFAULTS !! key
            end).
    split; [apply get_raw|]. split; [exact Hlocal|].
    rewrite get_eq. unfold ask_parent. rewrite Hparent. cbn [fst].
    destruct (cache_of self !! key) as [s|]; [reflexivity|].
    rewrite get_raw. cbn [fst bind].
    destruct (chain_lookup parent key) as [v|]; cbn [raw is_none andb].
    + destruct (DEFAULTS !! key); reflexivity.
    + destruct (DEFAULTS !! key) as [d|]; cbn [raw is_none andb]; [reflexivity|].
      destruct default; reflexivity.
  - exists None. split; [reflexivity|]. split; [exact Hlocal|].
    rewrite get_eq. unfold ask_parent. rewrite Hparent. cbn [fst].
    destruct (cache_of self !! key) as [s|]; [reflexivity|]. cbn [fst bind is_none andb].
    destruct (DEFAULTS !! key); [reflexivity|]. destruct default; reflexivity.
Qed.

(** C3: the whole chain of owners is walked before the defaults: the
    nearest record on the chain decides the result, however far up it is,
    and only without any record the built-in default table is used; an
    owner without a record for the key answers what its parent answers; on
    a chain without a record for it, [max_items_per_order] read as an
    integer is 10. *)
Theorem chain_before_defaults :
  (forall self key default as_type,
      fst (get self key default as_type) =
      match chain_lookup self key with
      | Some v => _unserialize (VStr v) as_type
      | None => last_resort key default as_type
      end) /\
  (forall self parent key default as_type,
      _parent self = Some parent ->
      cache_of self !! key = None ->
      chain_lookup self key = chain_lookup parent key /\
      fst (get self key default as_type) = fst (get parent key default as_type)) /\
  (forall self,
      chain_lookup self "max_items_per_order" = None ->
      fst (get self "max_items_per_order" VNone TInt) = Ok (VInt 10)).
Proof.
  split; [exact get_chain|split].
  - intros self parent key default as_type Hparent Hcache.
    assert (Hchain : chain_lookup self key = chain_lookup parent key).
    { destruct self as [obj p cached]. cbn [chain_lookup].
      rewrite Hcache. cbn [_parent] in *. rewrite Hparent. reflexivity. }
    split; [exact Hchain|]. rewrite !get_chain, Hchain. reflexivity.
  - intros self Hnone. rewrite get_chain, Hnone. reflexivity.
Qed.

(** C10: a key without a record on the chain, without a built-in default
    and without a default of the caller, read as a boolean, is [False]:
    [None] is compared with the string [True]. *)
Theorem get_bool_of_missing_key self key :
  chain_lookup self key = None ->
  DEFAULTS !! key = None ->
  fst (get self key VNone TBool) = Ok (VBool false).
Proof.
  intros Hchain Hdefault. rewrite get_chain, Hchain.
  unfold last_resort. rewrite Hdefault. reflexivity.
Qed.

(** *** [set] and [__delitem__] unfolded *)

(** The record [set] is about to write. *)
Lemma set_eq self key value :
  set self key value =
  match _serialize value with
  | Ok v =>
      let s := set_value (match cache_of self !! key with
                          | Some s => clone s
                          | None => _type (_obj self) key
                          end) v in
      (Ok tt, {| _obj := save s (_obj self); _parent := _parent self;
                 _cached_obj := Some (<[key := s]> (cache_of self)) |})
  | Raise e => (Raise e, snd (_cache self))
  | Unmodelled => (Unmodelled, snd (_cache self))
  end.
Proof.
  unfold set. rewrite (cache_pair self).
  rewrite cache_snd_obj, cache_snd_parent. reflexivity.
Qed.

Lemma delitem_eq self key :
  __delitem__ self key =
  match cache_of self !! key with
  | Some s =>
      {| _obj := delete_record s (_obj self); _parent := _parent self;
         _cached_obj := Some (delete key (cache_of self)) |}
  | None => snd (_cache self)
  end.
Proof.
  unfold __delitem__. rewrite (cache_pair self).
  rewrite cache_snd_obj, cache_snd_parent. reflexivity.
Qed.

Lemma cache_of_loaded_once self : cache_of (snd (_cache self)) = cache_of self.
Proof. destruct self as [obj parent [c|]]; reflexivity. Qed.

Lemma loaded_after_cache self : loaded (snd (_cache self)) = loaded self.
Proof. destruct self as [obj parent [c|]]; reflexivity. Qed.

Lemma chain_lookup_eq self key :
  chain_lookup self key =
  match cache_of self !! key with
  | Some s => Some (setting_value s)
  | None =>
      match _parent self with
      | Some parent => chain_lookup parent key
      | None => None
      end
  end.
Proof. destruct self; reflexivity. Qed.

(** After a [set] that succeeded, [get] unserializes what was written. *)
Lemma get_after_set self key value v default as_type :
  _serialize value = Ok v ->
  fst (set self key value) = Ok tt /\
  (exists s, cache_of (snd (set self key value)) !! key = Some s /\
             setting_value s = v) /\
  fst (get (snd (set self key value)) key default as_type)
  = _unserialize (VStr v) as_type.
Proof.
  intros Hser. rewrite set_eq, Hser. cbn [fst snd].
  split; [reflexivity|]. split.
  - eexists. unfold cache_of at 1. cbn [_cache _cached_obj fst].
    rewrite lookup_insert_eq. split; reflexivity.
  - rewrite get_eq. unfold cache_of at 1. cbn [_cache _cached_obj fst].
    rewrite lookup_insert_eq. reflexivity.
Qed.

(** C5: [set] of a value that is not a string, an integer, a float, a
    boolean or a list fails with a [TypeError] whose message names the
    type of the value; the records of the store are as before, and so are
    the cache contents, the entry for the key among them. *)
Theorem set_unsupported_type self key value :
  supported value = false ->
  fst (set self key value)
  = Raise (Exn TypeError
             (Some ("Unable to serialize " ++ str_of_type (type_of value)
                    ++ " into a setting."))) /\
  _obj (snd (set self key value)) = _obj self /\
  cache_of (snd (set self key value)) = cache_of self /\
  cache_of (snd (set self key value)) !! key = cache_of self !! key /\
  loaded (snd (set self key value)) = loaded self.
Proof.
  intros Hsup. rewrite set_eq.
  destruct value; try discriminate Hsup; cbn [_serialize isinstance orb fst snd];
    rewrite cache_snd_obj, cache_of_loaded_once, loaded_after_cache; auto.
Qed.

(** C6: a string read as a boolean is [True] exactly when it is the
    string [True]; [true], [1] and the empty string are [False]; so after
    [set(k, True)] and after [set(k, "True")] the key reads [True], and
    after [set(k, "true")] it reads [False]. *)
Theorem bool_is_literal_True :
  (forall s, _unserialize (VStr s) TBool = Ok (VBool (String.eqb s "True"))) /\
  (forall s, _unserialize (VStr s) TBool = Ok (VBool true) <-> s = "True") /\
  _unserialize (VStr "true") TBool = Ok (VBool false) /\
  _unserialize (VStr "1") TBool = Ok (VBool false) /\
  _unserialize (VStr "") TBool = Ok (VBool false) /\
  (forall self k default,
      fst (get (snd (set self k (VBool true))) k default TBool) = Ok (VBool true) /\
      fst (get (snd (set self k (VStr "True"))) k default TBool) = Ok (VBool true) /\
      fst (get (snd (set self k (VStr "true"))) k default TBool) = Ok (VBool false)).
Proof.
  split; [reflexivity|]. split.
  { intros s. cbn. split.
    - intros H. apply String.eqb_eq. congruence.
    - intros ->. reflexivity. }
  repeat (split; [reflexivity|]).
  intros self k default. repeat split.
  - apply (get_after_set self k (VBool true) "True"). reflexivity.
  - apply (get_after_set self k (VStr "True") "True"). reflexivity.
  - apply (get_after_set self k (VStr "true") "true"). reflexivity.
Qed.

(** C7: [del] of a cached key deletes its record from the store and
    removes the key from the cache; [del] of a key that is not cached
    changes nothing; afterwards [get] of the key resolves through the
    parents and the defaults, as on a proxy where the key was never set. *)
Theorem delete_falls_through self key :
  (forall s, cache_of self !! key = Some s ->
     _obj (__delitem__ self key) = delete_record s (_obj self) /\
     ~ In s (_obj (__delitem__ self key)) /\
     cache_of (__delitem__ self key) = delete key (cache_of self) /\
     cache_of (__delitem__ self key) !! key = None) /\
  (cache_of self !! key = None -> loaded (__delitem__ self key) = loaded self) /\
  (forall default as_type,
     fst (get (__delitem__ self key) key default as_type) =
     match match _parent self with
           | Some parent => chain_lookup parent key
           | None => None
           end with
     | Some v => _unserialize (VStr v) as_type
     | None => last_resort key default as_type
     end) /\
  (forall value default as_type,
     cache_of self !! key = None ->
     fst (get (__delitem__ (snd (set self key value)) key) key default as_type)
     = fst (get self key default as_type)).
Proof.
  assert (Hgone : forall self',
             cache_of self' !! key = None ->
             chain_lookup self' key =
             match _parent self' with
             | Some parent => chain_lookup parent key
             | None => None
             end).
  { intros self' H. rewrite chain_lookup_eq, H. reflexivity. }
  assert (Hdel : forall self', cache_of (__delitem__ self' key) !! key = None).
  { intros self'. rewrite delitem_eq.
    destruct (cache_of self' !! key) as [s|] eqn:E.
    - unfold cache_of. cbn [_cache _cached_obj fst]. apply lookup_delete_eq.
    - rewrite cache_of_loaded_once. exact E. }
  assert (Hpar : forall self', _parent (__delitem__ self' key) = _parent self').
  { intros self'. rewrite delitem_eq.
    destruct (cache_of self' !! key); [reflexivity|apply cache_snd_parent]. }
  split; [|split; [|split]].
  - intros s Hs. rewrite delitem_eq, Hs. cbn [_obj].
    split; [reflexivity|]. split.
    + unfold delete_record. rewrite filter_In. intros [_ H].
      unfold same_id in H. rewrite Nat.eqb_refl in H. discriminate H.
    + unfold cache_of at 1 2. cbn [_cache _cached_obj fst].
      split; [reflexivity|apply lookup_delete_eq].
  - intros Hnone. rewrite delitem_eq, Hnone. apply loaded_after_cache.
  - intros default as_type. rewrite get_chain, (Hgone _ (Hdel self)), Hpar.
    reflexivity.
  - intros value default as_type Hnone.
    rewrite !get_chain, (Hgone _ (Hdel _)), Hpar, (Hgone _ Hnone).
    rewrite set_eq. destruct (_serialize value); cbn [snd _parent];
      rewrite ?cache_snd_parent; reflexivity.
Qed.

(** C8: the view of scope [plugin] and sub-key [foo] on an owner [E] puts
    [plugin_foo_] before every key; after [set("bar", "baz")] on the view
    the cache of [E] has the key [plugin_foo_bar] with the value [baz],
    and [get("bar")] on the view gives [baz]. *)
Theorem sandbox_prefixes_keys (E : t) :
  let view := SettingsSandbox.Build E "plugin" "foo" in
  let view' := snd (SettingsSandbox.set view "bar" (VStr "baz")) in
  (forall r, SettingsSandbox._convert_key view r = "plugin_foo_" ++ r) /\
  (forall r value,
     SettingsSandbox._event (snd (SettingsSandbox.set view r value))
     = snd (set E ("plugin_foo_" ++ r) value)) /\
  (forall r, SettingsSandbox._event (SettingsSandbox.__delitem__ view r)
             = __delitem__ E ("plugin_foo_" ++ r)) /\
  fst (SettingsSandbox.set view "bar" (VStr "baz")) = Ok tt /\
  (exists s, cache_of (SettingsSandbox._event view') !! "plugin_foo_bar" = Some s /\
             setting_value s = "baz") /\
  fst (SettingsSandbox.get view' "bar" VNone TStr) = Ok (VStr "baz") /\
  fst (SettingsSandbox.__getitem__ view' "bar") = Ok (VStr "baz").
Proof.
  intros view view'.
  assert (Hkey : forall r, SettingsSandbox._convert_key view r = "plugin_foo_" ++ r)
    by reflexivity.
  assert (Hset : forall r value,
             SettingsSandbox.set view r value
             = (fst (set E ("plugin_foo_" ++ r) value),
                SettingsSandbox.with_event view (snd (set E ("plugin_foo_" ++ r) value)))).
  { intros r value. unfold SettingsSandbox.set. rewrite Hkey. cbn [SettingsSandbox._event view].
    destruct (set E ("plugin_foo_" ++ r) value); reflexivity. }
  assert (Hget : forall sb r default as_type,
             fst (SettingsSandbox.get sb r default as_type)
             = fst (get (SettingsSandbox._event sb)
                        (SettingsSandbox._convert_key sb r) default TType)).
  { intros sb r default as_type. unfold SettingsSandbox.get.
    destruct (get _ _ _ _); reflexivity. }
  destruct (get_after_set E "plugin_foo_bar" (VStr "baz") "baz" VNone TType eq_refl)
    as [Hok [Hcache Hread]].
  split; [exact Hkey|]. split; [intros; rewrite Hset; reflexivity|].
  split; [reflexivity|].
  split; [rewrite Hset; exact Hok|].
  subst view'. rewrite Hset. cbn [snd SettingsSandbox.with_event SettingsSandbox._event].
  split; [exact Hcache|].
  unfold SettingsSandbox.__getitem__. rewrite Hget.
  cbn [SettingsSandbox._event SettingsSandbox.with_event].
  split; exact Hread.
Qed.

(** [get] leaves the records and the cache contents of the whole chain as
    they are. *)
Lemma get_loaded self key default as_type :
  loaded (snd (get self key default as_type)) = loaded self.
Proof.
  revert default as_type.
  induction self as [obj cached | obj parent cached IH] using t_ind';
    intros default as_type; rewrite get_eq;
    destruct (cache_of _ !! key) as [s|]; cbn [snd];
    try apply loaded_after_cache.
  - reflexivity.
  - unfold ask_parent. cbn [_parent snd loaded _obj]. rewrite IH. reflexivity.
Qed.





(** C4: what the view does with the requested type.  Whatever [as_type]
    the caller gives, the proxy is called with the builtin [type]; so a
    record [5] under the prefixed key, read through the view as an
    integer, comes back as the string, while the proxy asked with the
    prefixed key and the same type gives the integer. *)
Theorem sandbox_get_drops_as_type :
  (forall view key default as_type,
     fst (SettingsSandbox.get view key default as_type)
     = fst (get (SettingsSandbox._event view)
                (SettingsSandbox._convert_key view key) default TType)) /\
  fst (SettingsSandbox.get plugin_view "limit" VNone TInt) = Ok (VStr "5") /\
  fst (get (SettingsSandbox._event plugin_view)
           (SettingsSandbox._convert_key plugin_view "limit") VNone TInt)
  = Ok (VInt 5).
Proof.
  split; [|split].
  - intros view key default as_type. unfold SettingsSandbox.get.
    destruct (get _ _ _ _); reflexivity.
  - reflexivity.
  - reflexivity.
Qed.

End Properties.

(** ** The round trip through the serialized string *)

#[local] Arguments String.append !_ _ / : simpl nomatch.

(** *** Integers and their decimal text *)

Lemma append_assoc (a b c : string) : (a ++ b) ++ c = a ++ (b ++ c).
Proof. induction a as [|x a IH]; cbn; [reflexivity|]. rewrite IH. reflexivity. Qed.

Lemma append_nil_r (a : string) : a ++ "" = a.
Proof. induction a as [|x a IH]; cbn; [reflexivity|]. rewrite IH. reflexivity. Qed.

Lemma length_append (a b : string) :
  String.length (a ++ b) = (String.length a + String.length b)%nat.
Proof. induction a as [|x a IH]; cbn; [reflexivity|]. rewrite IH. reflexivity. Qed.

(** The text of a number in decimal is made of digits, and its digits
    are read back. *)
Lemma digit_chars d : all_chars is_digit (NilEmpty.string_of_uint d) = true.
Proof. induction d; cbn; auto. Qed.

Lemma literal_digits_uint d b :
  b = true \/ d <> Nil ->
  literal_digits b (NilEmpty.string_of_uint d) = Some d.
Proof.
  revert b. induction d; intros b Hb; cbn;
    try (rewrite IHd by (left; reflexivity); reflexivity).
  destruct Hb as [->|H]; [reflexivity|congruence].
Qed.

(** [strip] leaves a text without white space as it is. *)
Lemma lstrip_id c s : int_space c = false -> lstrip (String c s) = String c s.
Proof. intros H. cbn. rewrite H. reflexivity. Qed.

Lemma rstrip_id s : all_chars (fun c => negb (int_space c)) s = true -> rstrip s = s.
Proof.
  induction s as [|c s IH]; cbn; [reflexivity|].
  intros H. apply andb_true_iff in H as [Hc Hs]. rewrite (IH Hs).
  destruct s; [|reflexivity]. apply negb_true_iff in Hc. rewrite Hc. reflexivity.
Qed.

Lemma all_chars_impl (P Q : ascii -> bool) s :
  (forall c, P c = true -> Q c = true) -> all_chars P s = true -> all_chars Q s = true.
Proof.
  intros HPQ. induction s as [|c s IH]; cbn; [reflexivity|].
  intros H. apply andb_true_iff in H as [Hc Hs]. rewrite (HPQ _ Hc), (IH Hs). reflexivity.
Qed.

Lemma digit_not_space c : is_digit c = true -> negb (int_space c) = true.
Proof.
  unfold is_digit, int_space. cbv zeta. intros H.
  apply andb_true_iff in H as [H1 H2].
  apply Nat.leb_le in H1. apply Nat.leb_le in H2.
  destruct (Nat.leb_spec 9 (nat_of_ascii c)), (Nat.leb_spec (nat_of_ascii c) 13),
    (Nat.eqb_spec (nat_of_ascii c) 32),
    (Nat.eqb_spec (nat_of_ascii c) 133), (Nat.eqb_spec (nat_of_ascii c) 160);
    cbn; try reflexivity; lia.
Qed.

(** The digits of a positive number begin with a digit that is not
    zero. *)
Lemma to_uint_head p :
  exists c s, NilEmpty.string_of_uint (Pos.to_uint p) = String c s /\
              is_digit c = true /\ Ascii.eqb c "0" = false.
Proof.
  pose proof (DecimalPos.Unsigned.to_uint_nonzero p) as Hnz.
  pose proof (DecimalPos.Unsigned.to_of (Pos.to_uint p)) as Hnorm.
  rewrite DecimalPos.Unsigned.of_to in Hnorm. cbn [N.to_uint] in Hnorm.
  pose proof (nzhead_nonzero (Pos.to_uint p)) as Hhead.
  unfold unorm in Hnorm.
  destruct (nzhead (Pos.to_uint p)) eqn:E; try (exfalso; apply Hnz; rewrite Hnorm; reflexivity);
    try (exfalso; eapply Hhead; reflexivity);
    rewrite Hnorm; cbn; eexists _, _; (split; [reflexivity|split; reflexivity]).
Qed.

Lemma string_of_pos p :
  NilZero.string_of_uint (Pos.to_uint p) = NilEmpty.string_of_uint (Pos.to_uint p).
Proof.
  destruct (Pos.to_uint p) eqn:E; try reflexivity.
  exfalso. eapply DecimalPos.Unsigned.to_uint_nonnil; eauto.
Qed.

(** [int] reads the text of an integer back. *)
Lemma int_of_str_of_int z : int_of_str (str_of_int z) = Some z.
Proof.
  unfold str_of_int.
  destruct z as [|p|p]; [reflexivity| |];
    cbn [Z.to_int NilZero.string_of_int]; rewrite string_of_pos;
    destruct (to_uint_head p) as (c & s & Hs & Hd & Hz);
    pose proof (digit_chars (Pos.to_uint p)) as Hall;
    pose proof (all_chars_impl _ _ _ digit_not_space Hall) as Hns;
    unfold int_of_str, strip.
  - rewrite Hs in Hns |- *. rewrite lstrip_id.
    2:{ cbn in Hns. apply andb_true_iff in Hns as [H _]. apply negb_true_iff in H. exact H. }
    rewrite (rstrip_id _ Hns).
    assert (Ascii.eqb c "+" = false /\ Ascii.eqb c "-" = false) as [-> ->].
    { split; apply Ascii.eqb_neq; intros ->; vm_compute in Hd; discriminate Hd. }
    rewrite <- Hs. rewrite literal_digits_uint.
    2:{ right. apply DecimalPos.Unsigned.to_uint_nonnil. }
    cbn. f_equal. unfold Z.of_uint. rewrite DecimalPos.Unsigned.of_to. reflexivity.
  - rewrite lstrip_id by reflexivity.
    rewrite rstrip_id by (cbn [all_chars]; rewrite Hns; reflexivity).
    cbn [Ascii.eqb Bool.eqb]. rewrite literal_digits_uint.
    2:{ right. apply DecimalPos.Unsigned.to_uint_nonnil. }
    cbn. f_equal. unfold Z.of_uint. rewrite DecimalPos.Unsigned.of_to. reflexivity.
Qed.

Section RoundTrip.

Context {FO : FloatOps}.

Import SettingsProxy.

(** *** Strings and numbers in a JSON text *)

(** An escaped character is scanned as the character. *)
Lemma scanstring_escape c t :
  scanstring (escape_char c ++ t) = push_char c (scanstring t).
Proof. destruct c as [[] [] [] [] [] [] [] []]; reflexivity. Qed.

Lemma scanstring_escape_chars s rest :
  scanstring (escape_chars s ++ String c_quote rest) = Ok (s, rest).
Proof.
  induction s as [|c s IH]; [reflexivity|].
  cbn [escape_chars]. rewrite append_assoc, scanstring_escape, IH. reflexivity.
Qed.

(** A test that fails on the three delimiters fails on the head of a
    delimited text. *)
Lemma delimited_head c r (P : ascii -> bool) :
  delimited (String c r) = true ->
  P ","%char = false -> P "]"%char = false -> P "}"%char = false -> P c = false.
Proof.
  cbn [delimited]. intros Hr H1 H2 H3.
  apply orb_true_iff in Hr as [Hr|Hr]; [apply orb_true_iff in Hr as [Hr|Hr]|];
    apply Ascii.eqb_eq in Hr; subst c; assumption.
Qed.

Lemma span_digits_all t rest :
  all_chars is_digit t = true -> delimited rest = true ->
  span_digits (t ++ rest) = (t, rest).
Proof.
  intros Ht Hr. induction t as [|c t IH]; cbn [String.append span_digits].
  - destruct rest as [|c r]; [reflexivity|]. cbn [span_digits].
    rewrite (delimited_head c r is_digit Hr); reflexivity.
  - cbn [all_chars] in Ht. apply andb_true_iff in Ht as [Hc Ht].
    rewrite Hc, (IH Ht). reflexivity.
Qed.

Lemma match_frac_delimited rest : delimited rest = true -> match_frac rest = (EmptyString, rest).
Proof.
  destruct rest as [|c r]; [reflexivity|]. intros Hr. cbn [match_frac].
  destruct r; [reflexivity|].
  rewrite (delimited_head c _ (fun c => Ascii.eqb c ".") Hr); reflexivity.
Qed.

Lemma match_exp_delimited rest : delimited rest = true -> match_exp rest = (EmptyString, rest).
Proof.
  destruct rest as [|c r]; [reflexivity|]. intros Hr. cbn [match_exp].
  rewrite (delimited_head c r (fun c => Ascii.eqb c "e" || Ascii.eqb c "E") Hr);
    reflexivity.
Qed.

(** An integer part followed by a delimiter is a number without fraction
    and without exponent. *)
Lemma match_number_rest int_part rest :
  delimited rest = true ->
  (let fr := match_frac rest in
   let ex := match_exp (snd fr) in
   Some (int_part ++ fst fr ++ fst ex,
         negb (String.eqb (fst fr) EmptyString && String.eqb (fst ex) EmptyString),
         snd ex)) = Some (int_part, false, rest).
Proof.
  intros Hr. cbv zeta. rewrite (match_frac_delimited _ Hr). cbn [fst snd].
  rewrite (match_exp_delimited _ Hr). cbn [fst snd String.append].
  rewrite append_nil_r. reflexivity.
Qed.

Lemma match_number_digits c s rest :
  is_digit c = true -> Ascii.eqb c "0" = false ->
  all_chars is_digit s = true -> delimited rest = true ->
  match_number (String c s ++ rest) = Some (String c s, false, rest) /\
  match_number (String "-" (String c s) ++ rest)
  = Some (String "-" (String c s), false, rest).
Proof.
  intros Hd Hz Hall Hr.
  assert (Ascii.eqb c "-" = false) as Hm.
  { apply Ascii.eqb_neq; intros ->; vm_compute in Hd; discriminate Hd. }
  split; unfold match_number; cbn [String.append].
  - rewrite Hm. cbn [fst snd]. rewrite Hz, Hd, (span_digits_all _ _ Hall Hr).
    cbn [fst snd String.append]. apply (match_number_rest (String c s) rest Hr).
  - cbn [Ascii.eqb Bool.eqb fst snd]. rewrite Hz, Hd, (span_digits_all _ _ Hall Hr).
    cbn [fst snd]. apply (match_number_rest (String "-" (String c s)) rest Hr).
Qed.

Lemma match_number_int z rest :
  delimited rest = true ->
  match_number (str_of_int z ++ rest) = Some (str_of_int z, false, rest).
Proof.
  intros Hr. unfold str_of_int.
  destruct z as [|p|p]; cbn [Z.to_int NilZero.string_of_int].
  - exact (match_number_rest "0" rest Hr).
  - rewrite string_of_pos. destruct (to_uint_head p) as (c & s & Hs & Hd & Hz).
    pose proof (digit_chars (Pos.to_uint p)) as Hall. rewrite Hs in Hall |- *.
    cbn [all_chars] in Hall. rewrite Hd in Hall.
    apply (match_number_digits c s rest Hd Hz Hall Hr).
  - rewrite string_of_pos. destruct (to_uint_head p) as (c & s & Hs & Hd & Hz).
    pose proof (digit_chars (Pos.to_uint p)) as Hall. rewrite Hs in Hall |- *.
    cbn [all_chars] in Hall. rewrite Hd in Hall.
    apply (match_number_digits c s rest Hd Hz Hall Hr).
Qed.

(** Induction on values, with the property for the items of the
    containers. *)
Lemma pyval_ind' (P : pyval -> Prop) :
  P VNone -> (forall b, P (VBool b)) -> (forall z, P (VInt z)) ->
  (forall f, P (VFloat f)) -> (forall s, P (VStr s)) ->
  (forall l, Forall P l -> P (VList l)) ->
  (forall l, Forall P l -> P (VTuple l)) ->
  (forall d, Forall (fun kv => P (fst kv) /\ P (snd kv)) d -> P (VDict d)) ->
  forall v, P v.
Proof.
  intros HNone HBool HInt HFloat HStr HList HTuple HDict. fix IH 1.
  intros [ |b|z|f|s|l|l|d];
    [apply HNone|apply HBool|apply HInt|apply HFloat|apply HStr| | | ].
  - apply HList. induction l as [|x l IHl]; constructor; [apply IH|exact IHl].
  - apply HTuple. induction l as [|x l IHl]; constructor; [apply IH|exact IHl].
  - apply HDict. induction d as [|[k x] d IHd]; constructor;
      [split; apply IH|exact IHd].
Qed.

Lemma str_of_int_head z :
  exists c s, str_of_int z = String c s /\ is_digit c || Ascii.eqb c "-" = true.
Proof.
  unfold str_of_int. destruct z as [|p|p]; cbn [Z.to_int NilZero.string_of_int].
  - eexists _, _. split; reflexivity.
  - rewrite string_of_pos. destruct (to_uint_head p) as (c & s & Hs & Hd & Hz).
    exists c, s. rewrite Hd. split; [exact Hs|reflexivity].
  - eexists _, _. split; reflexivity.
Qed.

(** At a digit or a minus sign [scan_once] scans a number. *)
Lemma scan_once_number_head fuel c s :
  is_digit c || Ascii.eqb c "-" = true ->
  scan_once (S fuel) (String c s) = scan_number (String c s) /\
  is_json_ws c = false /\ Ascii.eqb c "]" = false.
Proof.
  destruct c as [[] [] [] [] [] [] [] []]; intros H;
    try discriminate H; repeat split; reflexivity.
Qed.

Lemma scan_once_int fuel z rest :
  delimited rest = true ->
  scan_once (S fuel) (str_of_int z ++ rest) = Ok (VInt z, rest).
Proof.
  intros Hr. destruct (str_of_int_head z) as (c & s & Hs & Hc).
  pose proof (match_number_int z rest Hr) as Hm. rewrite Hs in Hm |- *.
  cbn [String.append] in Hm |- *.
  destruct (scan_once_number_head fuel c (s ++ rest) Hc) as [-> _].
  unfold scan_number. rewrite Hm, <- Hs, int_of_str_of_int. reflexivity.
Qed.

Lemma scan_once_str fuel s rest :
  scan_once (S fuel) (encode_basestring_ascii s ++ rest) = Ok (VStr s, rest).
Proof.
  unfold encode_basestring_ascii. cbn [String.append scan_once].
  rewrite Ascii.eqb_refl, append_assoc. cbn [String.append].
  rewrite scanstring_escape_chars. reflexivity.
Qed.

(** *** Arrays in a JSON text *)

Lemma scan_once_array fuel r :
  scan_once (S fuel) (String "[" r) =
  match skip_ws r with
  | String q r1 =>
      if Ascii.eqb q "]" then Ok (VList [], r1)
      else bind (scan_items fuel (String q r1)) (fun p => Ok (VList (fst p), snd p))
  | EmptyString => json_error
  end.
Proof. reflexivity. Qed.

(** No white space is skipped at the head of an encoded value. *)
Lemma skip_ws_head text rest : head_ok text -> skip_ws (text ++ rest) = text ++ rest.
Proof.
  intros (c & t & -> & Hws & _). cbn [String.append skip_ws]. rewrite Hws. reflexivity.
Qed.

(** The items of an array are read back. *)
Lemma scan_items_join x l :
  Forall (fun v => exists text, json_encode v = Ok text /\ reads_back v text) (x :: l) ->
  exists body,
    (forall first, join_items first (map json_encode (x :: l))
                   = Ok ((if first then "" else ", ") ++ body)) /\
    head_ok body /\
    forall fuel rest,
      (S (String.length body) <= fuel)%nat ->
      scan_items fuel (body ++ String "]" rest) = Ok (x :: l, rest).
Proof.
  revert x. induction l as [|y l IH]; intros x Hall.
  - apply Forall_inv in Hall as (tx & Hx & Hhead & Hread).
    exists tx. split; [|split].
    + intros first. cbn [map join_items]. rewrite Hx. cbn [bind].
      rewrite append_nil_r. reflexivity.
    + exact Hhead.
    + intros fuel rest Hfuel. destruct fuel as [|fuel]; [lia|].
      cbn [scan_items]. rewrite Hread by (try reflexivity; lia).
      reflexivity.
  - pose proof (Forall_inv Hall) as (tx & Hx & Hhead & Hread).
    apply Forall_inv_tail in Hall.
    destruct (IH y Hall) as (body & Hjoin & Hbody & Hitems).
    exists (tx ++ ", " ++ body). split; [|split].
    + intros first.
      change (join_items first (map json_encode (x :: y :: l)))
        with (bind (json_encode x) (fun sx =>
              bind (join_items false (map json_encode (y :: l))) (fun sl =>
              Ok ((if first then "" else ", ") ++ sx ++ sl)))).
      rewrite Hx, Hjoin. reflexivity.
    + destruct Hhead as (c & t & -> & Hc). exists c, (t ++ ", " ++ body).
      split; [reflexivity|exact Hc].
    + intros fuel rest Hfuel. destruct fuel as [|fuel]; [lia|].
      rewrite !length_append in Hfuel. cbn [String.length] in Hfuel.
      cbn [scan_items]. rewrite !append_assoc.
      rewrite Hread by (try reflexivity; lia).
      cbn [bind fst snd String.append skip_ws].
      change (is_json_ws ",") with false. cbn [Ascii.eqb Bool.eqb].
      change (is_json_ws " ") with true. cbv iota.
      change (skip_ws (String " " (body ++ String "]" rest)))
        with (skip_ws (body ++ String "]" rest)).
      rewrite (skip_ws_head body _ Hbody).
      rewrite Hitems by lia. reflexivity.
Qed.

(** *** The number at the head of a text *)

(** Each part of a number is a prefix of the text it is matched in, and
    is matched the same when a delimiter follows the text. *)
Lemma span_digits_text s : s = fst (span_digits s) ++ snd (span_digits s).
Proof.
  induction s as [|c s IH]; [reflexivity|]. cbn [span_digits].
  destruct (is_digit c); cbn [fst snd String.append]; [|reflexivity].
  rewrite <- IH. reflexivity.
Qed.

Lemma span_digits_append s rest :
  delimited rest = true ->
  span_digits (s ++ rest) = (fst (span_digits s), snd (span_digits s) ++ rest).
Proof.
  intros Hr. induction s as [|c s IH]; cbn [String.append].
  - apply (span_digits_all "" rest eq_refl Hr).
  - cbn [span_digits]. destruct (is_digit c); [|reflexivity].
    rewrite IH. reflexivity.
Qed.

Lemma match_frac_text s : s = fst (match_frac s) ++ snd (match_frac s).
Proof.
  destruct s as [|c [|d r]]; try reflexivity. cbn [match_frac].
  destruct (Ascii.eqb c "." && is_digit d); [|reflexivity].
  cbn [fst snd String.append]. rewrite <- span_digits_text. reflexivity.
Qed.

Lemma match_frac_append s rest :
  delimited rest = true ->
  match_frac (s ++ rest) = (fst (match_frac s), snd (match_frac s) ++ rest).
Proof.
  intros Hr. destruct s as [|c [|d r]].
  - apply (match_frac_delimited rest Hr).
  - cbn [String.append match_frac fst snd].
    destruct rest as [|x rest]; [reflexivity|].
    rewrite (delimited_head x rest is_digit Hr) by reflexivity.
    rewrite andb_false_r. reflexivity.
  - cbn [String.append match_frac].
    destruct (Ascii.eqb c "." && is_digit d); [|reflexivity].
    rewrite (span_digits_append r rest Hr). reflexivity.
Qed.

Lemma match_exp_text s : s = fst (match_exp s) ++ snd (match_exp s).
Proof.
  destruct s as [|e r]; [reflexivity|]. cbn [match_exp].
  destruct (Ascii.eqb e "e" || Ascii.eqb e "E"); [|reflexivity].
  destruct r as [|x r1].
  - reflexivity.
  - destruct (Ascii.eqb x "+" || Ascii.eqb x "-"); cbn [fst snd].
    + pose proof (span_digits_text r1) as H.
      destruct (fst (span_digits r1)) eqn:E; [reflexivity|].
      cbn [fst snd String.append] in H |- *. rewrite <- H. reflexivity.
    + pose proof (span_digits_text (String x r1)) as H.
      destruct (fst (span_digits (String x r1))) eqn:E; [reflexivity|].
      cbn [fst snd String.append] in H |- *. rewrite <- H. reflexivity.
Qed.

Lemma match_exp_append s rest :
  delimited rest = true ->
  match_exp (s ++ rest) = (fst (match_exp s), snd (match_exp s) ++ rest).
Proof.
  intros Hr. destruct s as [|e r].
  - apply (match_exp_delimited rest Hr).
  - cbn [String.append match_exp].
    destruct (Ascii.eqb e "e" || Ascii.eqb e "E"); [|reflexivity].
    destruct r as [|x r1].
    + cbn [String.append span_digits fst snd].
      destruct rest as [|y rest]; [reflexivity|].
      rewrite (delimited_head y rest (fun c => Ascii.eqb c "+" || Ascii.eqb c "-") Hr)
        by reflexivity.
      cbn [fst snd span_digits].
      rewrite (delimited_head y rest is_digit Hr) by reflexivity. reflexivity.
    + cbn [String.append].
      destruct (Ascii.eqb x "+" || Ascii.eqb x "-"); cbn [fst snd].
      * rewrite (span_digits_append r1 rest Hr). cbn [fst snd].
        destruct (fst (span_digits r1)); reflexivity.
      * change (String x (r1 ++ rest)) with (String x r1 ++ rest).
        rewrite (span_digits_append (String x r1) rest Hr). cbn [fst snd].
        destruct (fst (span_digits (String x r1))); reflexivity.
Qed.

Lemma number_tail_text s :
  s = (fst (match_frac s) ++ fst (match_exp (snd (match_frac s))))
      ++ snd (match_exp (snd (match_frac s))).
Proof. rewrite append_assoc, <- match_exp_text. apply match_frac_text. Qed.

(** The number at the head of a text is its beginning, and stays the
    number at the head when a delimiter follows the text. *)
Lemma match_number_text s t b r :
  match_number s = Some (t, b, r) -> s = t ++ r.
Proof.
  unfold match_number. intros H.
  destruct s as [|c s]; [discriminate H|].
  destruct (Ascii.eqb_spec c "-") as [->|Hc]; cbn [fst snd] in H.
  - destruct s as [|c s]; [discriminate H|].
    destruct (Ascii.eqb_spec c "0") as [->|Hz].
    + injection H as <- <- <-. cbn [String.append]. do 2 f_equal.
      apply number_tail_text.
    + destruct (is_digit c); [|discriminate H].
      injection H as <- <- <-. cbn [fst snd String.append]. do 2 f_equal.
      rewrite append_assoc, <- number_tail_text. apply span_digits_text.
  - destruct (Ascii.eqb_spec c "0") as [->|Hz].
    + injection H as <- <- <-. cbn [String.append]. f_equal.
      apply number_tail_text.
    + destruct (is_digit c); [|discriminate H].
      injection H as <- <- <-. cbn [fst snd String.append]. f_equal.
      rewrite append_assoc, <- number_tail_text. apply span_digits_text.
Qed.

Lemma match_number_append s rest t b r :
  delimited rest = true ->
  match_number s = Some (t, b, r) ->
  match_number (s ++ rest) = Some (t, b, r ++ rest).
Proof.
  intros Hr. unfold match_number. intros H.
  destruct s as [|c s]; [discriminate H|]. cbn [String.append].
  destruct (Ascii.eqb c "-"); cbn [fst snd] in H |- *.
  - destruct s as [|c' s]; [discriminate H|]. cbn [String.append].
    destruct (Ascii.eqb c' "0").
    + rewrite (match_frac_append s rest Hr). cbn [fst snd].
      rewrite (match_exp_append _ rest Hr). cbn [fst snd].
      injection H as <- <- <-. reflexivity.
    + destruct (is_digit c'); [|discriminate H].
      rewrite (span_digits_append s rest Hr). cbn [fst snd].
      rewrite (match_frac_append _ rest Hr). cbn [fst snd].
      rewrite (match_exp_append _ rest Hr). cbn [fst snd].
      injection H as <- <- <-. reflexivity.
  - destruct (Ascii.eqb c "0").
    + rewrite (match_frac_append s rest Hr). cbn [fst snd].
      rewrite (match_exp_append _ rest Hr). cbn [fst snd].
      injection H as <- <- <-. reflexivity.
    + destruct (is_digit c); [|discriminate H].
      rewrite (span_digits_append s rest Hr). cbn [fst snd].
      rewrite (match_frac_append _ rest Hr). cbn [fst snd].
      rewrite (match_exp_append _ rest Hr). cbn [fst snd].
      injection H as <- <- <-. reflexivity.
Qed.

Lemma match_number_head c s : 
  match_number (String c s) <> None -> is_digit c || Ascii.eqb c "-" = true.
Proof.
  unfold match_number.
  destruct (Ascii.eqb c "-"); [intros _; apply orb_true_r|]. cbn [fst snd].
  destruct (Ascii.eqb_spec c "0") as [->|Hz]; [reflexivity|].
  destruct (is_digit c); [reflexivity|]. intros H. contradiction H. reflexivity.
Qed.

(** *** Floats in a JSON text *)

Lemma scan_once_constants fuel rest :
  scan_once (S fuel) ("NaN" ++ rest)
  = bind (of_option ValueError (float_of_str "nan")) (fun f => Ok (VFloat f, rest)) /\
  scan_once (S fuel) ("Infinity" ++ rest)
  = bind (of_option ValueError (float_of_str "inf")) (fun f => Ok (VFloat f, rest)) /\
  scan_once (S fuel) ("-Infinity" ++ rest)
  = bind (of_option ValueError (float_of_str "-inf")) (fun f => Ok (VFloat f, rest)).
Proof. repeat split; reflexivity. Qed.

Lemma scan_once_float fuel f rest :
  float_of_str (float_repr f) = Some f ->
  json_float_text (float_repr f) = true ->
  delimited rest = true ->
  head_ok (floatstr f) /\
  scan_once (S fuel) (floatstr f ++ rest) = Ok (VFloat f, rest).
Proof.
  intros Hf Htext Hr. unfold floatstr, json_float_text in *.
  destruct (scan_once_constants fuel rest) as (Hnan & Hinf & Hninf).
  destruct (String.eqb_spec (float_repr f) "nan") as [E|_].
  { rewrite E in Hf. rewrite Hnan, Hf. split; [|reflexivity].
    eexists _, _. repeat split; reflexivity. }
  destruct (String.eqb_spec (float_repr f) "inf") as [E|_].
  { rewrite E in Hf. rewrite Hinf, Hf. split; [|reflexivity].
    eexists _, _. repeat split; reflexivity. }
  destruct (String.eqb_spec (float_repr f) "-inf") as [E|_].
  { rewrite E in Hf. rewrite Hninf, Hf. split; [|reflexivity].
    eexists _, _. repeat split; reflexivity. }
  cbn [orb] in Htext.
  destruct (match_number (float_repr f)) as [[[t b] r]|] eqn:Hm; [|discriminate Htext].
  destruct b; [|discriminate Htext]. destruct r; [|discriminate Htext].
  pose proof (match_number_text _ _ _ _ Hm) as Htxt. rewrite append_nil_r in Htxt.
  subst t.
  pose proof (match_number_append _ rest _ _ _ Hr Hm) as Happ.
  destruct (float_repr f) as [|c s] eqn:E; [discriminate Hm|].
  assert (Hc : is_digit c || Ascii.eqb c "-" = true).
  { apply (match_number_head c s). rewrite Hm. discriminate. }
  destruct (scan_once_number_head fuel c (s ++ rest) Hc) as (Hscan & Hws & Hclose).
  split; [exists c, s; repeat split; assumption|].
  cbn [String.append] in Happ |- *. rewrite Hscan. unfold scan_number.
  rewrite Happ, Hf. reflexivity.
Qed.

(** *** Dictionaries in a JSON text *)

(** Appended texts, associated to the right and with their known
    characters in front. *)
Ltac norm_append :=
  repeat first [ rewrite append_assoc
               | rewrite append_nil_r
               | progress cbn [String.append] ].

Lemma distinct_middle (a b : list string) k :
  distinct (a ++ k :: b)%list = true ->
  existsb (String.eqb k) a = false /\ distinct ((a ++ [k]) ++ b)%list = true.
Proof.
  intros H. split.
  - induction a as [|x a IH]; [reflexivity|].
    cbn [app distinct existsb] in H |- *.
    apply andb_true_iff in H as [Hx Ha]. rewrite (IH Ha), orb_false_r.
    apply negb_true_iff in Hx. rewrite existsb_app in Hx.
    apply orb_false_iff in Hx as [_ Hx]. cbn [existsb] in Hx.
    apply orb_false_iff in Hx as [Hx _]. rewrite String.eqb_sym. exact Hx.
  - rewrite <- app_assoc. exact H.
Qed.

Lemma dict_set_fresh d k v :
  existsb (String.eqb k) (map fst d) = false -> dict_set d k v = (d ++ [(k, v)])%list.
Proof.
  induction d as [|[k' v'] d IH]; [reflexivity|].
  cbn [map fst existsb dict_set app]. intros H.
  apply orb_false_iff in H as [Hk Hd]. rewrite String.eqb_sym, Hk, (IH Hd).
  reflexivity.
Qed.

Lemma fold_dict_set (l acc : list (string * pyval)) :
  distinct (map fst acc ++ map fst l)%list = true ->
  fold_left (fun d p => dict_set d (fst p) (snd p)) l acc = (acc ++ l)%list.
Proof.
  revert acc. induction l as [|[k v] l IH]; intros acc H.
  - rewrite app_nil_r. reflexivity.
  - cbn [map fst] in H. apply distinct_middle in H as [Hk Hrest].
    cbn [fold_left fst snd]. rewrite (dict_set_fresh acc k v Hk), IH.
    + rewrite <- app_assoc. reflexivity.
    + rewrite map_app. exact Hrest.
Qed.

Lemma json_native_list l : json_native (VList l) <-> Forall json_native l.
Proof.
  cbn [json_native]. induction l as [|x l IH]; split; intros H.
  - constructor.
  - exact I.
  - destruct H as [Hx Hl]. constructor; [exact Hx|apply IH, Hl].
  - split; [exact (Forall_inv H)|apply IH, (Forall_inv_tail H)].
Qed.

Lemma json_native_dict d :
  json_native (VDict d) <->
  distinct (map (fun kv => key_text (fst kv)) d) = true /\
  Forall (fun kv => is_str (fst kv) = true /\ json_native (snd kv)) d.
Proof.
  cbn [json_native].
  assert (H : forall d,
             (fix all (d : list (pyval * pyval)) : Prop :=
                match d with
                | [] => True
                | kv :: d' => is_str (fst kv) = true /\ json_native (snd kv) /\ all d'
                end) d
             <-> Forall (fun kv => is_str (fst kv) = true /\ json_native (snd kv)) d).
  { clear d. induction d as [|kv d IH]; split; intros H.
    - constructor.
    - exact I.
    - destruct H as (Hk & Hx & Hd). constructor; [split; assumption|apply IH, Hd].
    - destruct (Forall_inv H) as [Hk Hx].
      split; [exact Hk|]. split; [exact Hx|apply IH, (Forall_inv_tail H)]. }
  rewrite (H d). reflexivity.
Qed.

Lemma map_key_text (d : list (pyval * pyval)) :
  Forall (fun kv => is_str (fst kv) = true) d ->
  map (fun p => (VStr (fst p), snd p)) (map (fun kv => (key_text (fst kv), snd kv)) d)
  = d.
Proof.
  induction 1 as [|[k x] d Hk _ IH]; [reflexivity|].
  cbn [map fst snd]. rewrite IH. destruct k; try discriminate Hk. reflexivity.
Qed.

Lemma dict_of_pairs_native d :
  distinct (map (fun kv => key_text (fst kv)) d) = true ->
  Forall (fun kv => is_str (fst kv) = true) d ->
  dict_of_pairs (map (fun kv => (key_text (fst kv), snd kv)) d) = VDict d.
Proof.
  intros Hdistinct Hkeys. unfold dict_of_pairs. rewrite fold_dict_set.
  - cbn [app]. rewrite (map_key_text d Hkeys). reflexivity.
  - cbn [map app]. rewrite map_map. exact Hdistinct.
Qed.

Lemma scan_once_object fuel r :
  scan_once (S fuel) (String "{" r) =
  match skip_ws r with
  | String q r1 =>
      if Ascii.eqb q "}" then Ok (VDict [], r1)
      else if Ascii.eqb q c_quote
      then bind (scan_pairs fuel r1) (fun p => Ok (dict_of_pairs (fst p), snd p))
      else json_error
  | EmptyString => json_error
  end.
Proof. reflexivity. Qed.

(** The items of an object are read back, from after the opening quote
    of the first key. *)
Lemma scan_pairs_join kv d :
  Forall (fun kv => is_str (fst kv) = true /\
                    exists text, json_encode (snd kv) = Ok text /\
                                 reads_back (snd kv) text) (kv :: d) ->
  exists body,
    (forall first, join_items first (map (encode_pair json_encode) (kv :: d))
                   = Ok ((if first then "" else ", ") ++ String c_quote body)) /\
    forall fuel rest,
      (S (String.length body) <= fuel)%nat ->
      scan_pairs fuel (body ++ String "}" rest)
      = Ok (map (fun kv => (key_text (fst kv), snd kv)) (kv :: d), rest).
Proof.
  revert kv. induction d as [|kv' d IH]; intros [k x] Hall.
  - apply Forall_inv in Hall as (Hk & tx & Hx & Hhead & Hread).
    destruct k as [ | | | |key| | | ]; try discriminate Hk. cbn [fst snd] in *.
    exists (escape_chars key ++ String c_quote (": " ++ tx)). split.
    + intros first. cbn [map join_items]. unfold encode_pair. cbn [fst snd json_key bind].
      rewrite Hx. cbn [bind]. unfold encode_basestring_ascii.
      norm_append. reflexivity.
    + intros fuel rest Hfuel. destruct fuel as [|fuel]; [lia|].
      rewrite length_append in Hfuel. cbn [String.length] in Hfuel.
      rewrite length_append in Hfuel. cbn [String.length] in Hfuel.
      cbn [scan_pairs]. rewrite append_assoc. cbn [String.append].
      rewrite scanstring_escape_chars. cbn [bind fst snd].
      change (skip_ws (String ":" (String " " (tx ++ String "}" rest))))
        with (String ":" (String " " (tx ++ String "}" rest))).
      cbn [Ascii.eqb Bool.eqb].
      change (skip_ws (String " " (tx ++ String "}" rest)))
        with (skip_ws (tx ++ String "}" rest)).
      rewrite (skip_ws_head tx _ Hhead).
      rewrite Hread by (try reflexivity; lia). reflexivity.
  - pose proof (Forall_inv Hall) as (Hk & tx & Hx & Hhead & Hread).
    apply Forall_inv_tail in Hall.
    destruct (IH kv' Hall) as (body & Hjoin & Hpairs).
    destruct k as [ | | | |key| | | ]; try discriminate Hk. cbn [fst snd] in *.
    exists (escape_chars key ++ String c_quote (": " ++ tx ++ ", " ++ String c_quote body)).
    split.
    + intros first.
      change (join_items first (map (encode_pair json_encode) ((VStr key, x) :: kv' :: d)))
        with (bind (encode_pair json_encode (VStr key, x)) (fun sx =>
              bind (join_items false (map (encode_pair json_encode) (kv' :: d))) (fun sl =>
              Ok ((if first then "" else ", ") ++ sx ++ sl)))).
      unfold encode_pair at 1. cbn [fst snd json_key bind].
      rewrite Hx, Hjoin. cbn [bind]. unfold encode_basestring_ascii.
      norm_append. reflexivity.
    + intros fuel rest Hfuel. destruct fuel as [|fuel]; [lia|].
      rewrite length_append in Hfuel. cbn [String.length] in Hfuel.
      rewrite !length_append in Hfuel. cbn [String.length] in Hfuel.
      cbn [scan_pairs]. rewrite append_assoc. cbn [String.append].
      rewrite scanstring_escape_chars. cbn [bind fst snd].
      rewrite !append_assoc. cbn [String.append].
      change (skip_ws (String ":" (String " "
                (tx ++ String "," (String " " (String c_quote (body ++ String "}" rest)))))))
        with (String ":" (String " "
                (tx ++ String "," (String " " (String c_quote (body ++ String "}" rest)))))).
      cbn [Ascii.eqb Bool.eqb].
      change (skip_ws (String " "
                (tx ++ String "," (String " " (String c_quote (body ++ String "}" rest))))))
        with (skip_ws
                (tx ++ String "," (String " " (String c_quote (body ++ String "}" rest))))).
      rewrite (skip_ws_head tx _ Hhead).
      rewrite Hread by (try reflexivity; lia). cbn [bind fst snd].
      change (skip_ws (String "," (String " " (String c_quote (body ++ String "}" rest)))))
        with (String "," (String " " (String c_quote (body ++ String "}" rest)))).
      cbn [Ascii.eqb Bool.eqb].
      change (skip_ws (String " " (String c_quote (body ++ String "}" rest))))
        with (String c_quote (body ++ String "}" rest)).
      cbv beta iota. rewrite Ascii.eqb_refl. rewrite Hpairs by lia. reflexivity.
Qed.

(** *** The fuel of the decoder *)

Lemma skip_ws_length s : (String.length (skip_ws s) <= String.length s)%nat.
Proof.
  induction s as [|c s IH]; cbn [skip_ws String.length]; [lia|].
  destruct (is_json_ws c); cbn [String.length]; lia.
Qed.

Lemma push_char_ok c r k rest :
  push_char c r = Ok (k, rest) -> exists k', r = Ok (k', rest).
Proof.
  destruct r as [[k' rest']| |]; cbn; intros H; try discriminate H.
  injection H as _ <-. exists k'. reflexivity.
Qed.

Lemma scanstring_length s k r :
  scanstring s = Ok (k, r) -> (String.length r < String.length s)%nat.
Proof.
  revert k r. induction s as [s IH] using (well_founded_induction
    (Wf_nat.well_founded_ltof _ String.length)). unfold Wf_nat.ltof in IH.
  intros k r H. destruct s as [|c s]; [discriminate H|]. cbn [scanstring] in H.
  destruct (Ascii.eqb c c_quote).
  { injection H as _ <-. cbn [String.length]. lia. }
  destruct (Ascii.eqb c c_backslash).
  - destruct s as [|e r1]; [discriminate H|].
    destruct (Ascii.eqb e "u").
    + destruct r1 as [|h1 [|h2 [|h3 [|h4 r2]]]]; try discriminate H.
      destruct (decode_uXXXX h1 h2 h3 h4) as [n|]; [|discriminate H].
      destruct (n <? 256)%nat; [|discriminate H].
      apply push_char_ok in H as [k' H']. apply IH in H'; cbn [String.length] in *; lia.
    + destruct (backslash_char e); [|discriminate H].
      apply push_char_ok in H as [k' H']. apply IH in H'; cbn [String.length] in *; lia.
  - destruct (nat_of_ascii c <? 32)%nat; [discriminate H|].
    apply push_char_ok in H as [k' H']. apply IH in H'; cbn [String.length] in *; lia.
Qed.

Lemma strip_prefix_length p s r :
  strip_prefix p s = Some r -> String.length s = (String.length p + String.length r)%nat.
Proof.
  revert s. induction p as [|a p IH]; intros s H.
  - injection H as ->. reflexivity.
  - destruct s as [|b s]; [discriminate H|]. cbn [strip_prefix] in H.
    destruct (Ascii.eqb a b); [|discriminate H].
    cbn [String.length]. rewrite (IH s H). reflexivity.
Qed.

Lemma match_number_length s t b r :
  match_number s = Some (t, b, r) -> (String.length r < String.length s)%nat.
Proof.
  intros H. pose proof (match_number_text s t b r H) as Hs.
  assert (Ht : t <> "").
  { unfold match_number in H. destruct s as [|c s]; [discriminate H|].
    destruct (Ascii.eqb c "-"); cbn [fst snd] in H.
    - destruct s as [|c' s]; [discriminate H|].
      destruct (Ascii.eqb c' "0"); [injection H as <- _ _; discriminate|].
      destruct (is_digit c'); [injection H as <- _ _; discriminate|discriminate H].
    - destruct (Ascii.eqb c "0"); [injection H as <- _ _; discriminate|].
      destruct (is_digit c); [injection H as <- _ _; discriminate|discriminate H]. }
  rewrite Hs, length_append. destruct t; [contradiction Ht; reflexivity|].
  cbn [String.length]. lia.
Qed.

Lemma scan_number_length s v r :
  scan_number s = Ok (v, r) -> (String.length r < String.length s)%nat.
Proof.
  unfold scan_number. intros H.
  destruct (match_number s) as [[[t b] r']|] eqn:Hm.
  - apply match_number_length in Hm.
    destruct b.
    + destruct (float_of_str t); [|discriminate H]. injection H as _ <-. exact Hm.
    + destruct (int_of_str t); [|discriminate H]. injection H as _ <-. exact Hm.
  - destruct (strip_prefix "NaN" s) as [r1|] eqn:E1.
    { apply strip_prefix_length in E1. destruct (float_of_str "nan"); [|discriminate H].
      injection H as _ <-. cbn [String.length] in E1. lia. }
    destruct (strip_prefix "Infinity" s) as [r2|] eqn:E2.
    { apply strip_prefix_length in E2. destruct (float_of_str "inf"); [|discriminate H].
      injection H as _ <-. cbn [String.length] in E2. lia. }
    destruct (strip_prefix "-Infinity" s) as [r3|] eqn:E3; [|discriminate H].
    apply strip_prefix_length in E3. destruct (float_of_str "-inf"); [|discriminate H].
    injection H as _ <-. cbn [String.length] in E3. lia.
Qed.

Lemma bind_ok {A B} (r : result A) (k : A -> result B) b :
  bind r k = Ok b -> exists a, r = Ok a /\ k a = Ok b.
Proof. destruct r as [a| |]; cbn; intros H; try discriminate H. eauto. Qed.

(** A value, the items of an array and the pairs of an object take at
    least one character. *)
Lemma scan_progress fuel :
  (forall s v r, scan_once fuel s = Ok (v, r) ->
                 (String.length r < String.length s)%nat) /\
  (forall s l r, scan_items fuel s = Ok (l, r) ->
                 (String.length r < String.length s)%nat) /\
  (forall s l r, scan_pairs fuel s = Ok (l, r) ->
                 (String.length r < String.length s)%nat).
Proof.
  induction fuel as [|fuel (IHonce & IHitems & IHpairs)];
    [repeat split; intros; discriminate|].
  split; [|split].
  - intros s v r H. cbn [scan_once] in H. destruct s as [|c s]; [discriminate H|].
    destruct (Ascii.eqb c c_quote).
    { apply bind_ok in H as ([k r'] & Hs & H). injection H as _ <-.
      apply scanstring_length in Hs. cbn [snd String.length]. lia. }
    destruct (Ascii.eqb c "{").
    { pose proof (skip_ws_length s) as Hws.
      destruct (skip_ws s) as [|q r1]; [discriminate H|]. cbn [String.length] in *.
      destruct (Ascii.eqb q "}"); [injection H as _ <-; lia|].
      destruct (Ascii.eqb q c_quote); [|discriminate H].
      apply bind_ok in H as ([l r'] & Hp & H). injection H as _ <-.
      apply IHpairs in Hp. cbn [snd]. lia. }
    destruct (Ascii.eqb c "[").
    { pose proof (skip_ws_length s) as Hws.
      destruct (skip_ws s) as [|q r1]; [discriminate H|]. cbn [String.length] in *.
      destruct (Ascii.eqb q "]"); [injection H as _ <-; lia|].
      apply bind_ok in H as ([l r'] & Hp & H). injection H as _ <-.
      apply IHitems in Hp. cbn [snd String.length] in *. lia. }
    destruct (strip_prefix "null" (String c s)) as [r1|] eqn:E1.
    { injection H as _ <-. apply strip_prefix_length in E1.
      cbn [String.length] in *. lia. }
    destruct (strip_prefix "true" (String c s)) as [r2|] eqn:E2.
    { injection H as _ <-. apply strip_prefix_length in E2.
      cbn [String.length] in *. lia. }
    destruct (strip_prefix "false" (String c s)) as [r3|] eqn:E3.
    { injection H as _ <-. apply strip_prefix_length in E3.
      cbn [String.length] in *. lia. }
    apply scan_number_length in H. exact H.
  - intros s l r H. cbn [scan_items] in H.
    apply bind_ok in H as ([v r1] & Hv & H). apply IHonce in Hv. cbn [fst snd] in H.
    pose proof (skip_ws_length r1) as Hws.
    destruct (skip_ws r1) as [|c r2]; [discriminate H|]. cbn [String.length] in Hws.
    destruct (Ascii.eqb c "]"); [injection H as _ <-; lia|].
    destruct (Ascii.eqb c ","); [|discriminate H].
    apply bind_ok in H as ([l' r3] & Hl & H). injection H as _ <-.
    apply IHitems in Hl. pose proof (skip_ws_length r2). cbn [snd]. lia.
  - intros s l r H. cbn [scan_pairs] in H.
    apply bind_ok in H as ([k r1] & Hk & H). apply scanstring_length in Hk.
    cbn [fst snd] in H. pose proof (skip_ws_length r1) as Hws.
    destruct (skip_ws r1) as [|c r2]; [discriminate H|]. cbn [String.length] in Hws.
    destruct (Ascii.eqb c ":"); [|discriminate H].
    apply bind_ok in H as ([v r3] & Hv & H). apply IHonce in Hv.
    pose proof (skip_ws_length r2) as Hws2. cbn [fst snd] in H.
    pose proof (skip_ws_length r3) as Hws3.
    destruct (skip_ws r3) as [|c1 r4]; [discriminate H|]. cbn [String.length] in Hws3.
    destruct (Ascii.eqb c1 "}"); [injection H as _ <-; lia|].
    destruct (Ascii.eqb c1 ","); [|discriminate H].
    pose proof (skip_ws_length r4) as Hws4.
    destruct (skip_ws r4) as [|q r5]; [discriminate H|]. cbn [String.length] in Hws4.
    destruct (Ascii.eqb q c_quote); [|discriminate H].
    apply bind_ok in H as ([l' r6] & Hl & H). injection H as _ <-.
    apply IHpairs in Hl. cbn [snd]. lia.
Qed.

(** With fuel for twice the length of the text, more fuel changes
    nothing: the decoder never stops for want of fuel. *)
Lemma scan_stable fuel :
  (forall s fuel', (2 * String.length s + 1 <= fuel)%nat -> (fuel <= fuel')%nat ->
                   scan_once fuel' s = scan_once fuel s) /\
  (forall s fuel', (2 * String.length s + 2 <= fuel)%nat -> (fuel <= fuel')%nat ->
                   scan_items fuel' s = scan_items fuel s) /\
  (forall s fuel', (2 * String.length s + 2 <= fuel)%nat -> (fuel <= fuel')%nat ->
                   scan_pairs fuel' s = scan_pairs fuel s).
Proof.
  induction fuel as [|fuel (IHonce & IHitems & IHpairs)];
    [repeat split; intros; lia|].
  destruct (scan_progress fuel) as (Ponce & _ & _).
  split; [|split]; intros s [|fuel'] Hlen Hle; try lia.
  - cbn [scan_once]. destruct s as [|c s]; [reflexivity|].
    cbn [String.length] in Hlen. pose proof (skip_ws_length s) as Hws.
    destruct (Ascii.eqb c c_quote); [reflexivity|].
    destruct (Ascii.eqb c "{").
    { destruct (skip_ws s) as [|q r1]; [reflexivity|]. cbn [String.length] in Hws.
      destruct (Ascii.eqb q "}"); [reflexivity|].
      destruct (Ascii.eqb q c_quote); [|reflexivity].
      rewrite (IHpairs r1 fuel') by lia. reflexivity. }
    destruct (Ascii.eqb c "["); [|reflexivity].
    destruct (skip_ws s) as [|q r1]; [reflexivity|]. cbn [String.length] in Hws.
    destruct (Ascii.eqb q "]"); [reflexivity|].
    rewrite (IHitems (String q r1) fuel') by (cbn [String.length]; lia). reflexivity.
  - cbn [scan_items]. rewrite (IHonce s fuel') by lia.
    destruct (scan_once fuel s) as [[v r1]| |] eqn:Hv; [|reflexivity|reflexivity].
    apply Ponce in Hv. cbn [bind fst snd].
    pose proof (skip_ws_length r1) as Hws.
    destruct (skip_ws r1) as [|c r2]; [reflexivity|]. cbn [String.length] in Hws.
    destruct (Ascii.eqb c "]"); [reflexivity|].
    destruct (Ascii.eqb c ","); [|reflexivity].
    pose proof (skip_ws_length r2) as Hws2.
    rewrite (IHitems (skip_ws r2) fuel') by lia. reflexivity.
  - cbn [scan_pairs].
    destruct (scanstring s) as [[k r1]| |] eqn:Hk; [|reflexivity|reflexivity].
    apply scanstring_length in Hk. cbn [bind fst snd].
    pose proof (skip_ws_length r1) as Hws.
    destruct (skip_ws r1) as [|c r2]; [reflexivity|]. cbn [String.length] in Hws.
    destruct (Ascii.eqb c ":"); [|reflexivity].
    pose proof (skip_ws_length r2) as Hws2.
    rewrite (IHonce (skip_ws r2) fuel') by lia.
    destruct (scan_once fuel (skip_ws r2)) as [[v r3]| |] eqn:Hv; [|reflexivity|reflexivity].
    apply Ponce in Hv. cbn [bind fst snd].
    pose proof (skip_ws_length r3) as Hws3.
    destruct (skip_ws r3) as [|c1 r4]; [reflexivity|]. cbn [String.length] in Hws3.
    destruct (Ascii.eqb c1 "}"); [reflexivity|].
    destruct (Ascii.eqb c1 ","); [|reflexivity].
    pose proof (skip_ws_length r4) as Hws4.
    destruct (skip_ws r4) as [|q r5]; [reflexivity|]. cbn [String.length] in Hws4.
    destruct (Ascii.eqb q c_quote); [|reflexivity].
    rewrite (IHpairs r5 fuel') by lia. reflexivity.
Qed.

(** [json_decode] with any more fuel gives the same result. *)
Lemma json_decode_fuel s fuel :
  (2 * String.length s < fuel)%nat ->
  bind (scan_once fuel (skip_ws s)) (fun p =>
    match skip_ws (snd p) with
    | EmptyString => Ok (fst p)
    | _ => json_error
    end) = json_decode s.
Proof.
  intros Hfuel. unfold json_decode. pose proof (skip_ws_length s) as Hws.
  destruct (scan_stable (S (2 * String.length s))) as (Honce & _ & _).
  rewrite (Honce (skip_ws s) fuel) by lia. reflexivity.
Qed.
(** *** Every native value is read back *)

Lemma json_native_reads_back v :
  json_native v -> exists text, json_encode v = Ok text /\ reads_back v text.
Proof.
  induction v as [ |b|z|f|s|l IH|l IH|d IH] using pyval_ind'; intros Hnative.
  - exists "null". split; [reflexivity|]. split.
    + eexists _, _. repeat split; reflexivity.
    + intros [|fuel] rest Hf Hr; [cbn in Hf; lia|reflexivity].
  - exists (if b then "true" else "false"). split; [destruct b; reflexivity|]. split.
    + destruct b; eexists _, _; repeat split; reflexivity.
    + intros [|fuel] rest Hf Hr; [destruct b; cbn in Hf; lia|destruct b; reflexivity].
  - exists (str_of_int z). split; [reflexivity|]. split.
    + destruct (str_of_int_head z) as (c & s & Hs & Hc). exists c, s.
      split; [exact Hs|]. apply (scan_once_number_head 0 c s Hc).
    + intros [|fuel] rest Hf Hr; [|apply scan_once_int; exact Hr].
      destruct (str_of_int_head z) as (c & s & Hs & Hc). rewrite Hs in Hf.
      cbn in Hf. lia.
  - destruct Hnative as [Hf Htext].
    exists (floatstr f). split; [reflexivity|]. split.
    + apply (scan_once_float 0 f "" Hf Htext eq_refl).
    + intros [|fuel] rest Hfuel Hr; [|apply (scan_once_float fuel f rest Hf Htext Hr)].
      destruct (scan_once_float 0 f "" Hf Htext eq_refl) as [(c & t & E & _) _].
      rewrite E in Hfuel. cbn in Hfuel. lia.
  - exists (encode_basestring_ascii s). split; [reflexivity|]. split.
    + eexists _, _. repeat split; reflexivity.
    + intros [|fuel] rest Hf Hr; [cbn in Hf; lia|apply scan_once_str].
  - apply json_native_list in Hnative.
    assert (Hall : Forall (fun v => exists text, json_encode v = Ok text /\ reads_back v text) l).
    { clear -IH Hnative. induction IH as [|v l Hv _ IHl]; constructor.
      - apply Hv, (Forall_inv Hnative).
      - apply IHl, (Forall_inv_tail Hnative). }
    destruct l as [|x l].
    + exists "[]". split; [reflexivity|]. split.
      * eexists _, _. repeat split; reflexivity.
      * intros [|fuel] rest Hf Hr; [cbn in Hf; lia|reflexivity].
    + destruct (scan_items_join x l Hall) as (body & Hjoin & Hbody & Hitems).
      exists ("[" ++ body ++ "]"). split; [|split].
      * cbn [json_encode]. rewrite (Hjoin true). reflexivity.
      * eexists _, _. repeat split; reflexivity.
      * intros [|fuel] rest Hf Hr; [cbn in Hf; lia|].
        cbn [String.append String.length] in Hf |- *. rewrite length_append in Hf.
        cbn [String.length] in Hf. rewrite append_assoc.
        rewrite scan_once_array, (skip_ws_head body _ Hbody).
        destruct Hbody as (c & t & -> & Hws & Hclose).
        cbn [String.append]. rewrite Hclose.
        change (String c (t ++ String "]" rest)) with (String c t ++ String "]" rest).
        rewrite Hitems by lia. reflexivity.
  - contradiction Hnative.
  - apply json_native_dict in Hnative as [Hdistinct Hnative].
    assert (Hkeys : Forall (fun kv => is_str (fst kv) = true) d).
    { clear -Hnative. induction Hnative as [|kv d [Hk _] _ IHd]; constructor; assumption. }
    assert (Hall : Forall (fun kv => is_str (fst kv) = true /\
                                     exists text, json_encode (snd kv) = Ok text /\
                                                  reads_back (snd kv) text) d).
    { clear -IH Hnative. induction IH as [|kv d [_ Hx] _ IHd]; constructor.
      - destruct (Forall_inv Hnative) as [Hk Hn]. split; [exact Hk|apply Hx, Hn].
      - apply IHd, (Forall_inv_tail Hnative). }
    destruct d as [|kv d].
    + exists "{}". split; [reflexivity|]. split.
      * eexists _, _. repeat split; reflexivity.
      * intros [|fuel] rest Hf Hr; [cbn in Hf; lia|reflexivity].
    + destruct (scan_pairs_join kv d Hall) as (body & Hjoin & Hpairs).
      exists ("{" ++ String c_quote body ++ "}"). split; [|split].
      * cbn [json_encode]. rewrite (Hjoin true). reflexivity.
      * eexists _, _. repeat split; reflexivity.
      * intros [|fuel] rest Hf Hr; [cbn in Hf; lia|].
        cbn [String.append String.length] in Hf |- *. rewrite length_append in Hf.
        cbn [String.length] in Hf. rewrite append_assoc.
        rewrite scan_once_object.
        change (skip_ws (String c_quote (body ++ "}" ++ rest)))
          with (String c_quote (body ++ "}" ++ rest)).
        cbv beta iota. change (Ascii.eqb c_quote "}") with false.
        cbv iota. rewrite Ascii.eqb_refl. change ("}" ++ rest) with (String "}" rest).
        rewrite Hpairs by lia. cbn [bind fst snd].
        rewrite (dict_of_pairs_native _ Hdistinct Hkeys). reflexivity.
Qed.

(** [json.loads] gives back the value [json.dumps] was given. *)
Lemma json_loads_dumps v :
  json_native v ->
  exists text, json_dumps v = Ok text /\ json_loads (VStr text) = Ok v.
Proof.
  intros Hnative.
  destruct (json_native_reads_back v Hnative) as (text & Henc & Hhead & Hread).
  exists text. split; [exact Henc|].
  unfold json_loads, json_decode.
  pose proof (skip_ws_head text "" Hhead) as Hws. rewrite append_nil_r in Hws.
  rewrite Hws. rewrite <- (append_nil_r text) at 2.
  rewrite Hread by (try reflexivity; lia). reflexivity.
Qed.

(** C2, amended: for a string, an integer, a boolean, a float whose
    [repr] is read back by [float], or a list made of [None], booleans,
    integers, strings and lists of these, [set(k, v)] succeeds and
    [get(k, as_type=type(v))] then returns [v]; a boolean is stored as the
    string [True] or [False] and read by comparing with [True]. *)
Theorem set_get_round_trip self k default v :
  round_trips v ->
  fst (set self k v) = Ok tt /\
  fst (get (snd (set self k v)) k default (type_of v)) = Ok v /\
  (forall b, v = VBool b ->
     _serialize v = Ok (str_of_bool b) /\
     (exists s, cache_of (snd (set self k v)) !! k = Some s /\
                setting_value s = str_of_bool b) /\
     _unserialize (VStr (str_of_bool b)) TBool
     = Ok (VBool (String.eqb (str_of_bool b) "True"))).
Proof.
  intros Hv.
  assert (Hser : exists text, _serialize v = Ok text /\
                              _unserialize (VStr text) (type_of v) = Ok v).
  { destruct v as [ |b|z|f|s|l|l|d]; try contradiction Hv.
    - exists (str_of_bool b). split; [reflexivity|]. destruct b; reflexivity.
    - exists (str_of_int z). split; [reflexivity|].
      cbn [type_of _unserialize isinstance pytype_eqb py_int].
      rewrite int_of_str_of_int. reflexivity.
    - exists (float_repr f). split; [reflexivity|].
      cbn [type_of _unserialize isinstance pytype_eqb py_float].
      cbn [round_trips] in Hv. rewrite Hv. reflexivity.
    - exists s. split; reflexivity.
    - destruct (json_loads_dumps (VList l) Hv) as (text & Hdumps & Hloads).
      exists text. split; [exact Hdumps|exact Hloads]. }
  destruct Hser as (text & Hser & Hunser).
  destruct (get_after_set self k v text default (type_of v) Hser)
    as [Hok [Hcache Hread]].
  split; [exact Hok|]. split; [rewrite Hread; exact Hunser|].
  intros b ->. cbn [_serialize isinstance orb py_str] in Hser |- *.
  injection Hser as <-. split; [reflexivity|]. split; [exact Hcache|reflexivity].
Qed.

End RoundTrip.

(** ** More of the two classes *)

Section MoreOfTheProxy.

Context {FO : FloatOps}.

Import SettingsProxy.

Lemma find_append {A} (f : A -> bool) (l1 l2 : list A) :
  List.find f (l1 ++ l2)%list =
  match List.find f l1 with
  | Some x => Some x
  | None => List.find f l2
  end.
Proof.
  induction l1 as [|x l1 IH]; [reflexivity|].
  cbn. destruct (f x); [reflexivity|exact IH].
Qed.

(** The dictionary after the records [l] were filed on top of [c]. *)
Lemma load_fold (l : list Setting) (c : gmap string Setting) key :
  fold_left (fun c setting => <[setting_key setting := setting]> c) l c !! key =
  match List.find (fun s => String.eqb (setting_key s) key) (rev l) with
  | Some s => Some s
  | None => c !! key
  end.
Proof.
  revert c. induction l as [|r l IH]; intros c; [reflexivity|].
  cbn [fold_left rev]. rewrite IH, find_append.
  destruct (List.find _ (rev l)) as [s|]; [reflexivity|].
  cbn [List.find]. destruct (String.eqb (setting_key r) key) eqn:E.
  - apply String.eqb_eq in E. subst key. apply lookup_insert_eq.
  - apply String.eqb_neq in E. apply lookup_insert_ne. exact E.
Qed.

Lemma load_find records key :
  load records !! key
  = List.find (fun s => String.eqb (setting_key s) key) (rev records).
Proof.
  unfold load. rewrite load_fold.
  destruct (List.find _ _); [reflexivity|apply lookup_empty].
Qed.

(** X1: the cache of a new proxy, at its first use, holds for every key
    the last of the current records of the owner with that key: every
    entry is a record of the owner filed under its own key, and a key is
    absent exactly when no record has it. *)
Theorem cache_holds_last_record obj parent key :
  cache_of (__init__ obj parent) !! key
  = List.find (fun s => String.eqb (setting_key s) key) (rev obj) /\
  (forall s, cache_of (__init__ obj parent) !! key = Some s ->
             In s obj /\ setting_key s = key) /\
  (cache_of (__init__ obj parent) !! key = None <->
   forall s, In s obj -> setting_key s <> key).
Proof.
  assert (H : cache_of (__init__ obj parent) !! key
              = List.find (fun s => String.eqb (setting_key s) key) (rev obj))
    by apply load_find.
  split; [exact H|]. rewrite H. split.
  - intros s Hs. apply find_some in Hs. destruct Hs as [Hin Hk].
    split; [apply in_rev, Hin|apply String.eqb_eq, Hk].
  - split.
    + intros Hnone s Hin Hk.
      apply in_rev in Hin. pose proof (find_none _ _ Hnone s Hin) as Hf.
      cbv beta in Hf. apply String.eqb_neq in Hf. exact (Hf Hk).
    + intros Hall. destruct (List.find _ _) as [s|] eqn:E; [|reflexivity].
      apply find_some in E. destruct E as [Hin Hk].
      exfalso. apply (Hall s); [apply in_rev, Hin|apply String.eqb_eq, Hk].
Qed.

(** *** Reading *)

Lemma cache_of_cached self c : _cached_obj self = Some c -> cache_of self = c.
Proof. destruct self as [obj parent cached]. cbn. intros ->. reflexivity. Qed.

Lemma chain_lookup_loaded self key :
  chain_lookup (loaded self) key = chain_lookup self key.
Proof.
  induction self as [obj cached | obj parent cached IH] using t_ind';
    cbn [loaded _parent _obj]; rewrite !chain_lookup_eq;
    cbn [_parent]; unfold cache_of at 1; cbn [_cache _cached_obj fst];
    destruct (cache_of _ !! key); try reflexivity.
  exact IH.
Qed.

(** The caches that are the same give the same nearest record. *)
Lemma chain_lookup_same a b key :
  loaded a = loaded b -> chain_lookup a key = chain_lookup b key.
Proof.
  intros H. rewrite <- (chain_lookup_loaded a), <- (chain_lookup_loaded b), H.
  reflexivity.
Qed.

Lemma get_cached self key default as_type :
  _cached_obj (snd (get self key default as_type)) = Some (cache_of self).
Proof.
  rewrite get_eq. destruct (cache_of self !! key); cbn [snd _cached_obj];
    [apply cache_snd_cached|reflexivity].
Qed.

(** [get] in one step: what is stored decides, then the default of the
    caller. *)
Lemma get_stored self key default as_type :
  fst (get self key default as_type) =
  _unserialize (match stored self key with
                | Some v => VStr v
                | None => default
                end) as_type.
Proof.
  rewrite get_chain. unfold stored, last_resort.
  destruct (chain_lookup self key); [reflexivity|].
  destruct (DEFAULTS !! key); [reflexivity|].
  destruct default; reflexivity.
Qed.

Lemma unserialize_str value : _unserialize value TStr = Ok value.
Proof. destruct value; reflexivity. Qed.

(** X2: the cache is loaded once.  After a first [get], whatever the
    records of the owner have become, every [get] answers as it would have
    before; in particular a [get] does not change the answer of a later
    one. *)
Theorem cache_is_loaded_once self key0 default0 type0 records key default as_type :
  fst (get (with_records (snd (get self key0 default0 type0)) records)
           key default as_type)
  = fst (get self key default as_type) /\
  fst (get (snd (get self key0 default0 type0)) key default as_type)
  = fst (get self key default as_type).
Proof.
  assert (Hread : chain_lookup (snd (get self key0 default0 type0)) key
                  = chain_lookup self key)
    by apply chain_lookup_same, get_loaded.
  split; rewrite !get_chain; [|rewrite Hread; reflexivity].
  rewrite <- Hread, !chain_lookup_eq.
  rewrite (cache_of_cached _ _ (get_cached self key0 default0 type0)).
  rewrite (cache_of_cached (with_records _ records) (cache_of self))
    by apply get_cached.
  reflexivity.
Qed.

(** X3: [get(key, default, as_type)] is [self[key]] converted: the
    string read never fails, and the typed read unserializes what it
    gives, or the default of the caller when it gives [None]. *)
Theorem typed_read_is_converted_string_read self key default as_type :
  fst (get self key default as_type) =
  bind (fst (__getitem__ self key))
       (fun value => _unserialize (if is_none value then default else value) as_type).
Proof.
  unfold __getitem__. rewrite !get_stored, unserialize_str. cbn [bind].
  destruct (stored self key); reflexivity.
Qed.

(** X4: read as a string, so by [self[key]] and by [self.key] too, a key
    never fails: the answer is the stored string, and without one the
    default of the caller as it is, not converted to a string.  Read as a
    boolean a key never fails either. *)
Theorem string_reads_never_fail self key default :
  fst (get self key default TStr)
  = Ok (match stored self key with
        | Some v => VStr v
        | None => default
        end) /\
  fst (__getitem__ self key) = Ok (raw (stored self key)) /\
  fst (__getattr__ self key) = Ok (raw (stored self key)) /\
  exists b, fst (get self key default TBool) = Ok (VBool b).
Proof.
  unfold __getitem__, __getattr__. rewrite !get_stored, !unserialize_str.
  split; [reflexivity|]. split; [destruct (stored self key); reflexivity|].
  split; [destruct (stored self key); reflexivity|].
  destruct (stored self key) as [v|]; [eexists; reflexivity|].
  destruct default; eexists; reflexivity.
Qed.

(** X5: when a string is stored for the key, [get(key, default,
    as_type=int)] is [int] of that string, whatever the default of the
    caller: the integer when the string is the text of one, a [ValueError]
    when it is not.  The text of an integer may have white space around
    it; a separator of the code points 28 to 31 is not such white
    space. *)
Theorem default_does_not_rescue_bad_record self key s default :
  stored self key = Some s ->
  fst (get self key default TInt) =
  match int_of_str s with
  | Some z => Ok (VInt z)
  | None => Raise (Exn ValueError None)
  end.
Proof.
  intros Hs. rewrite get_stored, Hs.
  unfold _unserialize. cbn [isinstance pytype_eqb py_int].
  destruct (int_of_str s); reflexivity.
Qed.

Lemma unserialize_type value as_type result :
  as_type = TInt \/ as_type = TFloat \/ as_type = TBool ->
  _unserialize value as_type = Ok result ->
  isinstance result as_type = true.
Proof.
  unfold _unserialize. intros [-> | [-> | ->]];
    destruct (isinstance value _) eqn:E; cbn [pytype_eqb orb];
    try (intros [= <-]; exact E).
  - destruct value; cbn [py_int]; try discriminate.
    + destruct (int_of_float f); cbn [bind]; [|discriminate..]. intros [= <-]. reflexivity.
    + destruct (int_of_str s); cbn [of_option bind]; [|discriminate].
      intros [= <-]. reflexivity.
  - destruct value; cbn [py_float]; try discriminate.
    + destruct (float_of_int _); cbn [of_option bind]; [|discriminate].
      intros [= <-]. reflexivity.
    + destruct (float_of_int _); cbn [of_option bind]; [|discriminate].
      intros [= <-]. reflexivity.
    + destruct (float_of_str s); cbn [of_option bind]; [|discriminate].
      intros [= <-]. reflexivity.
  - intros [= <-]. reflexivity.
Qed.

(** X6: a [get] as [int], [float] or [bool] that succeeds gives an
    instance of the type that was asked for, the default of the caller
    included. *)
Theorem typed_read_has_the_type self key default as_type result :
  as_type = TInt \/ as_type = TFloat \/ as_type = TBool ->
  fst (get self key default as_type) = Ok result ->
  isinstance result as_type = true.
Proof.
  intros Htype. rewrite get_stored. apply unserialize_type, Htype.
Qed.

(** *** Writing *)

(** X7: after [self[key] = value] the item [self[key]] is the serialized
    string of the value, not the value; when the value cannot be
    serialized the item reads as before. *)
Theorem item_read_after_write self key value :
  fst (__getitem__ (snd (__setitem__ self key value)) key) =
  match _serialize value with
  | Ok text => Ok (VStr text)
  | _ => fst (__getitem__ self key)
  end.
Proof.
  unfold __getitem__, __setitem__.
  destruct (_serialize value) as [text|e|] eqn:Hser.
  - destruct (get_after_set self key value text VNone TStr Hser) as (_ & _ & ->).
    reflexivity.
  - rewrite set_eq, Hser. cbn [snd]. rewrite !get_chain.
    rewrite (chain_lookup_same _ self) by apply loaded_after_cache. reflexivity.
  - rewrite set_eq, Hser. cbn [snd]. rewrite !get_chain.
    rewrite (chain_lookup_same _ self) by apply loaded_after_cache. reflexivity.
Qed.

(** X20: a [set] that fails writes nothing: the records and the cache
    contents of the whole chain are as before.  So it is for a list that
    JSON cannot encode, one with a dictionary under a tuple as key: its
    type passes the tests of [_serialize], and [set] fails with the
    [TypeError] of [json.dumps]. *)
Theorem failed_set_writes_nothing self key value :
  (fst (set self key value) <> Ok tt ->
   loaded (snd (set self key value)) = loaded self /\
   _obj (snd (set self key value)) = _obj self) /\
  supported list_with_tuple_key = true /\
  fst (set self key list_with_tuple_key) = Raise (Exn TypeError None).
Proof.
  split; [|split; [reflexivity|]].
  - rewrite set_eq. destruct (_serialize value); cbn [fst snd].
    + intros H. exfalso. apply H. reflexivity.
    + intros _. split; [apply loaded_after_cache|apply cache_snd_obj].
    + intros _. split; [apply loaded_after_cache|apply cache_snd_obj].
  - rewrite set_eq. reflexivity.
Qed.

Lemma get_after_other_set self key key' value default as_type :
  key' <> key ->
  fst (get (snd (set self key value)) key' default as_type)
  = fst (get self key' default as_type).
Proof.
  intros Hne. rewrite !get_chain, set_eq.
  destruct (_serialize value); cbn [snd];
    try (rewrite (chain_lookup_same _ self) by apply loaded_after_cache; reflexivity).
  rewrite (chain_lookup_eq self), chain_lookup_eq. cbn [_parent].
  unfold cache_of at 1. cbn [_cache _cached_obj fst].
  rewrite lookup_insert_ne by congruence. reflexivity.
Qed.

Lemma get_after_other_del self key key' default as_type :
  key' <> key ->
  fst (get (__delitem__ self key) key' default as_type)
  = fst (get self key' default as_type).
Proof.
  intros Hne. rewrite !get_chain, delitem_eq.
  destruct (cache_of self !! key);
    try (rewrite (chain_lookup_same _ self) by apply loaded_after_cache; reflexivity).
  rewrite (chain_lookup_eq self), chain_lookup_eq. cbn [_parent].
  unfold cache_of at 1. cbn [_cache _cached_obj fst].
  rewrite lookup_delete_ne by congruence. reflexivity.
Qed.

(** X8: [set] and [del] of one key leave what [get] answers for every
    other key as it was, for every default and every type. *)
Theorem other_keys_read_as_before self key key' value default as_type :
  key' <> key ->
  fst (get (snd (set self key value)) key' default as_type)
  = fst (get self key' default as_type) /\
  fst (get (__delitem__ self key) key' default as_type)
  = fst (get self key' default as_type).
Proof.
  intros Hne. split; [apply get_after_other_set|apply get_after_other_del]; exact Hne.
Qed.

(** X9: what is set on the parent is read through the child, unless the
    child has a record of its own for the key, which then decides. *)
Theorem parent_value_is_inherited self parent key value text default as_type :
  _serialize value = Ok text ->
  fst (get (with_parent self (snd (set parent key value))) key default as_type) =
  match cache_of self !! key with
  | Some s => _unserialize (VStr (setting_value s)) as_type
  | None => _unserialize (VStr text) as_type
  end.
Proof.
  intros Hser. rewrite get_chain, chain_lookup_eq.
  assert (Hc : cache_of (with_parent self (snd (set parent key value))) = cache_of self)
    by (destruct self as [obj p [c|]]; reflexivity).
  rewrite Hc. destruct (cache_of self !! key); [reflexivity|].
  cbn [with_parent _parent]. rewrite chain_lookup_eq.
  destruct (get_after_set parent key value text default as_type Hser)
    as (_ & (s & -> & ->) & _).
  reflexivity.
Qed.

(** X10: every entry of the cache is filed under the key of its record:
    so it is when the cache is loaded, and [get], [set] and [del] keep it
    so. *)
Theorem cache_entries_keep_their_key :
  (forall obj parent, keyed (__init__ obj parent)) /\
  (forall self,
     keyed self ->
     (forall key default as_type, keyed (snd (get self key default as_type))) /\
     (forall key value, keyed (snd (set self key value))) /\
     (forall key, keyed (__delitem__ self key))).
Proof.
  split.
  - intros obj parent key s Hs.
    change (load obj !! key = Some s) in Hs. rewrite load_find in Hs.
    apply find_some in Hs. apply String.eqb_eq, Hs.
  - intros self Hkeyed. split; [|split].
    + intros key default as_type k s.
      rewrite (cache_of_cached _ _ (get_cached self key default as_type)).
      apply Hkeyed.
    + intros key value k s. rewrite set_eq.
      destruct (_serialize value); cbn [snd];
        rewrite ?cache_of_loaded_once; try apply Hkeyed.
      unfold cache_of at 1. cbn [_cache _cached_obj fst].
      destruct (String.eqb_spec k key) as [-> | Hne].
      * rewrite lookup_insert_eq. intros [= <-]. cbn [set_value setting_key].
        destruct (cache_of self !! key) as [s0|] eqn:E; [|reflexivity].
        cbn [clone setting_key]. apply (Hkeyed _ _ E).
      * rewrite lookup_insert_ne by congruence. apply Hkeyed.
    + intros key k s. rewrite delitem_eq.
      destruct (cache_of self !! key);
        rewrite ?cache_of_loaded_once; try apply Hkeyed.
      unfold cache_of at 1. cbn [_cache _cached_obj fst].
      destruct (String.eqb_spec k key) as [-> | Hne].
      * rewrite lookup_delete_eq. discriminate.
      * rewrite lookup_delete_ne by congruence. apply Hkeyed.
Qed.

End MoreOfTheProxy.

(** *** The keys of a view *)

Lemma append_inj_l (a x y : string) : a ++ x = a ++ y -> x = y.
Proof. induction a as [|c a IH]; cbn; [auto|]. intros [= H]. auto. Qed.

(** A text is cut at its first underscore in one way. *)
Lemma cut_at_underscore (a b x y : string) :
  no_underscore a = true -> no_underscore b = true ->
  a ++ "_" ++ x = b ++ "_" ++ y -> a = b /\ x = y.
Proof.
  unfold no_underscore. revert b.
  induction a as [|c a IH]; intros [|d b]; cbn [all_chars String.append].
  - intros _ _ [= H]. auto.
  - intros _ Hb [= <- _]. discriminate Hb.
  - intros Ha _ [= -> _]. discriminate Ha.
  - intros Ha Hb [= <- H].
    apply andb_prop in Ha, Hb. destruct Ha as [_ Ha]. destruct Hb as [_ Hb].
    destruct (IH b Ha Hb H) as [-> ->]. auto.
Qed.

Section TheView.

Context {FO : FloatOps}.

Import SettingsSandbox.

Lemma unserialize_type_builtin value : SettingsProxy._unserialize value TType = Ok value.
Proof. destruct value; reflexivity. Qed.

Lemma view_get view key default as_type :
  get view key default as_type
  = (fst (SettingsProxy.get (_event view) (_convert_key view key) default TType),
     with_event view
       (snd (SettingsProxy.get (_event view) (_convert_key view key) default TType))).
Proof. unfold get. destruct (SettingsProxy.get _ _ _ _); reflexivity. Qed.

Lemma view_set view key value :
  set view key value
  = (fst (SettingsProxy.set (_event view) (_convert_key view key) value),
     with_event view (snd (SettingsProxy.set (_event view) (_convert_key view key) value))).
Proof. unfold set. destruct (SettingsProxy.set _ _ _); reflexivity. Qed.

Lemma convert_key_with_event view settings key :
  _convert_key (with_event view settings) key = _convert_key view key.
Proof. reflexivity. Qed.

Lemma convert_key_inj view key key' :
  _convert_key view key = _convert_key view key' -> key = key'.
Proof.
  unfold _convert_key. intros H.
  apply append_inj_l in H. apply (append_inj_l "_") in H.
  apply append_inj_l in H. apply (append_inj_l "_") in H. exact H.
Qed.

(** X11: a view maps different keys to different keys of the owner, and
    two views whose scope and sub-key have no underscore share a key of
    the owner only when they have the same scope and the same sub-key. *)
Theorem view_keys_are_separate (a b : t) key key' :
  (_convert_key a key = _convert_key a key' -> key = key') /\
  (no_underscore (_type a) = true -> no_underscore (_key a) = true ->
   no_underscore (_type b) = true -> no_underscore (_key b) = true ->
   _convert_key a key = _convert_key b key' ->
   _type a = _type b /\ _key a = _key b /\ key = key').
Proof.
  split; [apply convert_key_inj|].
  unfold _convert_key. intros Hta Hka Htb Hkb H.
  apply (cut_at_underscore _ _ _ _ Hta Htb) in H. destruct H as [Ht H].
  apply (cut_at_underscore _ _ _ _ Hka Hkb) in H. destruct H as [Hk H].
  auto.
Qed.

(** X12: an underscore in a sub-key or in a scope makes two views meet:
    the view of scope [type] and sub-key [middle_key] and the view of
    scope [type_middle] and sub-key [key] use the same keys of the owner,
    so what is set through the one is read through the other. *)
Theorem views_meet_across_underscores event type middle key item :
  _convert_key (__init__ type (middle ++ "_" ++ key) event) item
  = _convert_key (__init__ (type ++ "_" ++ middle) key event) item /\
  forall value text,
    SettingsProxy._serialize value = Ok text ->
    fst (get (__init__ (type ++ "_" ++ middle) key
                (_event (snd (set (__init__ type (middle ++ "_" ++ key) event)
                                  item value))))
             item VNone TStr)
    = Ok (VStr text).
Proof.
  assert (Hkey : forall e e',
             _convert_key (__init__ type (middle ++ "_" ++ key) e) item
             = _convert_key (__init__ (type ++ "_" ++ middle) key e') item).
  { intros e e'. unfold _convert_key, __init__. cbn [_type _key].
    rewrite !append_assoc. reflexivity. }
  split; [apply Hkey|].
  intros value text Hser. rewrite view_get, view_set. cbn [fst snd].
  rewrite <- (Hkey event). cbn [__init__ _event with_event].
  destruct (get_after_set event
              (_convert_key (__init__ type (middle ++ "_" ++ key) event) item)
              value text VNone TType Hser) as (_ & _ & ->).
  reflexivity.
Qed.

(** X13: a read through a view never fails and never converts: whatever
    type is asked for, the answer is the stored string of the prefixed
    key, and without one the default of the caller as it is. *)
Theorem view_reads_are_string_reads view key default as_type :
  fst (get view key default as_type)
  = Ok (match stored (_event view) (_convert_key view key) with
        | Some v => VStr v
        | None => default
        end) /\
  fst (__getitem__ view key) = Ok (raw (stored (_event view) (_convert_key view key))) /\
  fst (__getattr__ view key) = Ok (raw (stored (_event view) (_convert_key view key))).
Proof.
  unfold __getitem__, __getattr__.
  rewrite !view_get. cbn [fst]. rewrite !get_stored, !unserialize_type_builtin.
  split; [reflexivity|].
  destruct (stored _ _); split; reflexivity.
Qed.

(** X14: after [set] through a view the key reads, through the view, as
    the serialized string; [set] and [del] through the view leave the
    other keys of the view, and every key of the owner but the prefixed
    one, reading as before. *)
Theorem view_read_after_write view key value default as_type :
  (forall text,
     SettingsProxy._serialize value = Ok text ->
     fst (get (snd (set view key value)) key default as_type) = Ok (VStr text)) /\
  (forall key',
     key' <> key ->
     fst (get (snd (set view key value)) key' default as_type)
     = fst (get view key' default as_type) /\
     fst (get (__delitem__ view key) key' default as_type)
     = fst (get view key' default as_type) /\
     fst (get (__delattr__ view key) key' default as_type)
     = fst (get view key' default as_type)) /\
  (forall name as_type',
     name <> _convert_key view key ->
     fst (SettingsProxy.get (_event (snd (set view key value))) name default as_type')
     = fst (SettingsProxy.get (_event view) name default as_type') /\
     fst (SettingsProxy.get (_event (__delitem__ view key)) name default as_type')
     = fst (SettingsProxy.get (_event view) name default as_type')).
Proof.
  split; [|split].
  - intros text Hser. rewrite view_get, view_set. cbn [fst snd with_event _event].
    rewrite convert_key_with_event.
    destruct (get_after_set (_event view) (_convert_key view key)
                value text default TType Hser) as (_ & _ & ->).
    reflexivity.
  - intros key' Hne.
    assert (Hne' : _convert_key view key' <> _convert_key view key)
      by (intros H; apply Hne, (convert_key_inj view), H).
    rewrite !view_get, view_set. unfold __delattr__, __delitem__.
    cbn [fst snd with_event _event]. rewrite !convert_key_with_event.
    rewrite get_after_other_set, get_after_other_del by exact Hne'. auto.
  - intros name as_type' Hne. rewrite view_set. unfold __delitem__.
    cbn [snd with_event _event].
    rewrite get_after_other_set, get_after_other_del by exact Hne. auto.
Qed.

End TheView.

(** *** Attributes *)

Lemma public_name key :
  starts_with_underscore key = false ->
  is_dunder key = false /\
  among ProxyObject.fields key = false /\
  among SandboxObject.fields key = false.
Proof.
  unfold starts_with_underscore, is_dunder. destruct key as [|c key]; [auto|].
  cbn [String.prefix]. destruct (Ascii.ascii_dec "_" c) as [<-|Hc].
  - destruct key; discriminate.
  - intros _. split; [reflexivity|].
    assert (E : Ascii.eqb c "_" = false) by (apply Ascii.eqb_neq; congruence).
    unfold among, ProxyObject.fields, SandboxObject.fields.
    cbn [existsb String.eqb]. rewrite E. auto.
Qed.

Section Attributes.

Context {FO : FloatOps}.

Lemma no_public_attribute (attributes : gmap string pyval) key :
  private_attributes attributes ->
  starts_with_underscore key = false ->
  attributes !! key = None.
Proof.
  intros Hprivate Hkey. destruct (attributes !! key) as [v|] eqn:E; [|reflexivity].
  rewrite (Hprivate key v E) in Hkey. discriminate Hkey.
Qed.

Lemma no_attributes_private : private_attributes ∅.
Proof. intros key v H. rewrite lookup_empty in H. discriminate H. Qed.

Lemma setattr_public (self : ProxyObject.t) key value :
  starts_with_underscore key = false ->
  ProxyObject.__setattr__ self key value
  = (of_result (fst (SettingsProxy.set (ProxyObject.proxy self) key value)),
     ProxyObject.with_proxy self
       (snd (SettingsProxy.set (ProxyObject.proxy self) key value))).
Proof.
  intros Hkey. unfold ProxyObject.__setattr__. rewrite Hkey.
  destruct (SettingsProxy.set _ _ _); reflexivity.
Qed.

(** X15: an assignment to an attribute with a public name that is not a
    method is [self[key] = value]: no attribute of the instance is made,
    and the attribute reads as the serialized string. *)
Theorem public_attribute_is_a_setting (self : ProxyObject.t) key value text :
  starts_with_underscore key = false ->
  among ProxyObject.methods key = false ->
  private_attributes (ProxyObject.attributes self) ->
  SettingsProxy._serialize value = Ok text ->
  fst (ProxyObject.__setattr__ self key value) = Done tt /\
  ProxyObject.attributes (snd (ProxyObject.__setattr__ self key value))
  = ProxyObject.attributes self /\
  ProxyObject.proxy (snd (ProxyObject.__setattr__ self key value))
  = snd (SettingsProxy.__setitem__ (ProxyObject.proxy self) key value) /\
  fst (ProxyObject.getattr (snd (ProxyObject.__setattr__ self key value)) key)
  = Done (AValue (VStr text)).
Proof.
  intros Hkey Hmethod Hprivate Hser.
  destruct (public_name key Hkey) as (Hdunder & Hfield & _).
  destruct (get_after_set (ProxyObject.proxy self) key value text VNone TStr Hser)
    as (Hok & _ & Hread).
  rewrite setattr_public by exact Hkey. cbn [fst snd]. rewrite Hok.
  split; [reflexivity|]. split; [reflexivity|]. split; [reflexivity|].
  unfold ProxyObject.getattr. rewrite Hdunder, Hfield, Hmethod.
  cbn [ProxyObject.with_proxy ProxyObject.attributes ProxyObject.proxy].
  rewrite (no_public_attribute _ key Hprivate Hkey).
  unfold SettingsProxy.__getattr__.
  revert Hread. destruct (SettingsProxy.get _ key VNone TStr) as [r p].
  cbn [fst]. intros ->. reflexivity.
Qed.

(** X16: a setting named [get] or [set] can be written by attribute but
    not read by attribute: the assignment stores the setting, the item
    reads it, and the attribute is the method. *)
Theorem method_names_hide_settings (self : ProxyObject.t) key value text :
  key = "get" \/ key = "set" ->
  private_attributes (ProxyObject.attributes self) ->
  SettingsProxy._serialize value = Ok text ->
  fst (ProxyObject.__setattr__ self key value) = Done tt /\
  fst (SettingsProxy.__getitem__
         (ProxyObject.proxy (snd (ProxyObject.__setattr__ self key value))) key)
  = Ok (VStr text) /\
  fst (ProxyObject.getattr (snd (ProxyObject.__setattr__ self key value)) key)
  = Done (AMethod key).
Proof.
  intros Hname Hprivate Hser.
  assert (Hkey : starts_with_underscore key = false)
    by (destruct Hname as [-> | ->]; reflexivity).
  assert (Hmethod : among ProxyObject.methods key = true)
    by (destruct Hname as [-> | ->]; reflexivity).
  destruct (public_name key Hkey) as (Hdunder & Hfield & _).
  destruct (get_after_set (ProxyObject.proxy self) key value text VNone TStr Hser)
    as (Hok & _ & Hread).
  rewrite setattr_public by exact Hkey. cbn [fst snd]. rewrite Hok.
  split; [reflexivity|]. split; [exact Hread|].
  unfold ProxyObject.getattr. rewrite Hdunder, Hfield, Hmethod.
  cbn [ProxyObject.with_proxy ProxyObject.attributes].
  rewrite (no_public_attribute _ key Hprivate Hkey). reflexivity.
Qed.

(** X17: an assignment to an attribute whose name starts with an
    underscore is kept on the instance and leaves the settings alone, and
    so does its deletion; deleting it once more is an [AttributeError]. *)
Theorem private_attribute_is_not_a_setting (self : ProxyObject.t) key value :
  starts_with_underscore key = true ->
  fst (ProxyObject.__setattr__ self key value) = Done tt ->
  let self' := snd (ProxyObject.__setattr__ self key value) in
  ProxyObject.proxy self' = ProxyObject.proxy self /\
  fst (ProxyObject.getattr self' key) = Done (AValue value) /\
  fst (ProxyObject.__delattr__ self' key) = Done tt /\
  ProxyObject.proxy (snd (ProxyObject.__delattr__ self' key)) = ProxyObject.proxy self /\
  fst (ProxyObject.__delattr__ (snd (ProxyObject.__delattr__ self' key)) key)
  = AttributeError.
Proof.
  intros Hkey. unfold ProxyObject.__setattr__, ProxyObject.__delattr__.
  rewrite Hkey. unfold ProxyObject.object_setattr, ProxyObject.object_delattr.
  destruct (is_dunder key || among ProxyObject.fields key
            || among ProxyObject.methods key) eqn:E; [discriminate|].
  intros _. cbn [snd fst ProxyObject.proxy ProxyObject.attributes].
  apply orb_false_elim in E. destruct E as [E Hmethod].
  apply orb_false_elim in E. destruct E as [Hdunder Hfield].
  unfold ProxyObject.getattr. rewrite Hdunder, Hfield.
  cbn [ProxyObject.attributes]. rewrite !lookup_insert_eq.
  cbn [snd fst ProxyObject.proxy ProxyObject.attributes].
  rewrite lookup_delete_eq. auto.
Qed.

(** X18: on a view, [del] of an attribute whose name starts with an
    underscore does not remove the attribute that the assignment made: it
    deletes the setting under the prefixed key, and the attribute
    stays. *)
Theorem view_del_ignores_private_attribute (self : SandboxObject.t) key value :
  starts_with_underscore key = true ->
  fst (SandboxObject.__setattr__ self key value) = Done tt ->
  let self' := snd (SandboxObject.__delattr__
                      (snd (SandboxObject.__setattr__ self key value)) key) in
  fst (SandboxObject.getattr self' key) = Done (AValue value) /\
  SettingsSandbox._event (SandboxObject.view self')
  = SettingsProxy.__delitem__
      (SettingsSandbox._event (SandboxObject.view self))
      (SettingsSandbox._convert_key (SandboxObject.view self) key).
Proof.
  intros Hkey. unfold SandboxObject.__setattr__, SandboxObject.__delattr__.
  rewrite Hkey. unfold SandboxObject.object_setattr.
  destruct (is_dunder key || among SandboxObject.fields key
            || among SandboxObject.methods key) eqn:E; [discriminate|].
  intros _. cbn [snd fst SandboxObject.view SandboxObject.attributes
                 SandboxObject.with_view].
  apply orb_false_elim in E. destruct E as [E Hmethod].
  apply orb_false_elim in E. destruct E as [Hdunder Hfield].
  unfold SandboxObject.getattr. rewrite Hdunder, Hfield.
  unfold SandboxObject.with_view at 1 2.
  cbn [SandboxObject.attributes SandboxObject.view]. rewrite lookup_insert_eq.
  split; reflexivity.
Qed.

(** X19: the instance of a proxy only ever has attributes whose name
    starts with an underscore. *)
Theorem attributes_stay_private :
  (forall obj parent,
     private_attributes (ProxyObject.attributes (ProxyObject.__init__ obj parent))) /\
  (forall (self : ProxyObject.t) key,
     private_attributes (ProxyObject.attributes self) ->
     (forall value,
        private_attributes
          (ProxyObject.attributes (snd (ProxyObject.__setattr__ self key value)))) /\
     private_attributes (ProxyObject.attributes (snd (ProxyObject.__delattr__ self key))) /\
     private_attributes (ProxyObject.attributes (snd (ProxyObject.getattr self key)))).
Proof.
  split.
  - intros obj parent. apply no_attributes_private.
  - intros self key Hprivate. split; [|split].
    + intros value. unfold ProxyObject.__setattr__.
      destruct (starts_with_underscore key) eqn:Hkey.
      * unfold ProxyObject.object_setattr. destruct (_ || _); [exact Hprivate|].
        cbn [snd ProxyObject.attributes]. intros k v.
        destruct (String.eqb_spec k key) as [-> | Hne].
        -- intros _. exact Hkey.
        -- rewrite lookup_insert_ne by congruence. apply Hprivate.
      * destruct (SettingsProxy.set _ _ _). exact Hprivate.
    + unfold ProxyObject.__delattr__.
      destruct (starts_with_underscore key) eqn:Hkey; [|exact Hprivate].
      unfold ProxyObject.object_delattr. destruct (_ || _); [exact Hprivate|].
      destruct (ProxyObject.attributes self !! key); [|exact Hprivate].
      cbn [snd ProxyObject.attributes]. intros k v.
      destruct (String.eqb_spec k key) as [-> | Hne].
      * rewrite lookup_delete_eq. discriminate.
      * rewrite lookup_delete_ne by congruence. apply Hprivate.
    + unfold ProxyObject.getattr.
      destruct (is_dunder key); [exact Hprivate|].
      destruct (among ProxyObject.fields key); [exact Hprivate|].
      destruct (ProxyObject.attributes self !! key); [exact Hprivate|].
      destruct (among ProxyObject.methods key); [exact Hprivate|].
      destruct (SettingsProxy.__getattr__ _ _). exact Hprivate.
Qed.

End Attributes.

(** ** The theorems at work on the sample owners *)

#[local] Existing Instance integral_floats.

Lemma get_resolution_order_witness :
  cache_of event_settings !! "presale_days"
  = Some (mkSetting 3 "presale_days" "[1, 2]") /\
  snd (SettingsProxy.get event_settings "presale_days" VNone TList)
  = snd (SettingsProxy._cache event_settings) /\
  fst (SettingsProxy.get event_settings "presale_days" VNone TList)
  = Ok (VList [VInt 1; VInt 2]).
Proof.
  destruct (get_resolution_order event_settings "presale_days" VNone TList)
    as (handed_down & _ & Hlocal & Hresult).
  split; [reflexivity|]. split.
  - apply (Hlocal (mkSetting 3 "presale_days" "[1, 2]")). reflexivity.
  - rewrite Hresult. reflexivity.
Defined.

Lemma chain_before_defaults_witness :
  (SettingsProxy._parent event_settings = Some organizer_settings /\
   cache_of event_settings !! "show_times" = None /\
   fst (SettingsProxy.get (FO := integral_floats) event_settings "show_times" VNone TBool)
   = Ok (VBool true)) /\
  (chain_lookup event_settings "max_items_per_order" = None /\
   fst (SettingsProxy.get (FO := integral_floats)
          event_settings "max_items_per_order" VNone TInt) = Ok (VInt 10)).
Proof.
  pose proof (chain_before_defaults (FO := integral_floats)) as [_ [Hparent Hmax]].
  split.
  - split; [reflexivity|]. split; [reflexivity|].
    destruct (Hparent event_settings organizer_settings "show_times" VNone TBool
                eq_refl eq_refl) as [_ ->].
    reflexivity.
  - split; [reflexivity|]. apply Hmax. reflexivity.
Defined.

Lemma get_bool_of_missing_key_witness :
  chain_lookup event_settings "no_such_key" = None /\
  DEFAULTS !! "no_such_key" = None /\
  fst (SettingsProxy.get (FO := integral_floats)
         event_settings "no_such_key" VNone TBool) = Ok (VBool false).
Proof.
  split; [reflexivity|]. split; [reflexivity|].
  apply get_bool_of_missing_key; reflexivity.
Defined.

Lemma set_unsupported_type_witness :
  supported (FO := integral_floats) (VDict []) = false /\
  fst (SettingsProxy.set (FO := integral_floats) event_settings "presale_days" (VDict []))
  = Raise (Exn TypeError (Some "Unable to serialize <class 'dict'> into a setting.")) /\
  SettingsProxy._obj
    (snd (SettingsProxy.set (FO := integral_floats) event_settings "presale_days" (VDict [])))
  = SettingsProxy._obj event_settings.
Proof.
  split; [reflexivity|].
  destruct (set_unsupported_type (FO := integral_floats)
              event_settings "presale_days" (VDict []) eq_refl)
    as [Hraise [Hobj _]].
  split; [exact Hraise|exact Hobj].
Defined.

Lemma delete_falls_through_witness :
  cache_of event_settings !! "presale_days"
  = Some (mkSetting 3 "presale_days" "[1, 2]") /\
  SettingsProxy._obj (SettingsProxy.__delitem__ event_settings "presale_days") = [] /\
  cache_of event_settings !! "show_times" = None /\
  fst (SettingsProxy.get (FO := integral_floats)
         (SettingsProxy.__delitem__
            (snd (SettingsProxy.set event_settings "show_times" (VBool false)))
            "show_times")
         "show_times" VNone TBool)
  = fst (SettingsProxy.get (FO := integral_floats) event_settings "show_times" VNone TBool).
Proof.
  destruct (delete_falls_through (FO := integral_floats) event_settings "presale_days")
    as [Hcached _].
  destruct (delete_falls_through (FO := integral_floats) event_settings "show_times")
    as [_ [_ [_ Hnever]]].
  split; [reflexivity|]. split.
  - destruct (Hcached _ eq_refl) as [-> _]. reflexivity.
  - split; [reflexivity|]. apply Hnever. reflexivity.
Defined.



Lemma set_get_round_trip_witness :
  round_trips sample_list /\
  fst (SettingsProxy.get
         (snd (SettingsProxy.set event_settings "presale_days" sample_list))
         "presale_days" VNone TList)
  = Ok sample_list /\
  round_trips (VFloat (FO := integral_floats) 3) /\
  fst (SettingsProxy.get
         (snd (SettingsProxy.set event_settings "show_times"
                 (VFloat (FO := integral_floats) 3)))
         "show_times" VNone TFloat)
  = Ok (VFloat (FO := integral_floats) 3).
Proof.
  assert (H1 : round_trips sample_list) by (repeat split; reflexivity).
  assert (H2 : round_trips (VFloat (FO := integral_floats) 3)) by reflexivity.
  split; [exact H1|]. split.
  - apply (set_get_round_trip event_settings "presale_days" VNone _ H1).
  - split; [exact H2|].
    apply (set_get_round_trip event_settings "show_times" VNone _ H2).
Defined.

(** C2 as it is stated fails on a list that holds a tuple: the list is of
    a supported type and [set] accepts it, but JSON has no tuples and
    [get] returns a list of lists. *)
Lemma round_trip_counterexample :
  supported list_of_pairs = true /\
  fst (SettingsProxy.set event_settings "presale_days" list_of_pairs) = Ok tt /\
  fst (SettingsProxy.get
         (snd (SettingsProxy.set event_settings "presale_days" list_of_pairs))
         "presale_days" VNone (type_of list_of_pairs))
  = Ok (VList [VList [VInt 1; VInt 2]]) /\
  fst (SettingsProxy.get
         (snd (SettingsProxy.set event_settings "presale_days" list_of_pairs))
         "presale_days" VNone (type_of list_of_pairs))
  <> Ok list_of_pairs.
Proof.
  split; [reflexivity|]. split; [reflexivity|].
  assert (H : fst (SettingsProxy.get
                     (snd (SettingsProxy.set event_settings "presale_days" list_of_pairs))
                     "presale_days" VNone (type_of list_of_pairs))
              = Ok (VList [VList [VInt 1; VInt 2]])) by reflexivity.
  split; [exact H|]. rewrite H. discriminate.
Qed.

(** *** More of the two classes on the sample owners *)

Lemma cache_holds_last_record_witness :
  cache_of (SettingsProxy.__init__
              [mkSetting 1 "locale" "en"; mkSetting 2 "locale" "de"] None) !! "locale"
  = Some (mkSetting 2 "locale" "de") /\
  In (mkSetting 2 "locale" "de")
     [mkSetting 1 "locale" "en"; mkSetting 2 "locale" "de"] /\
  setting_key (mkSetting 2 "locale" "de") = "locale".
Proof.
  destruct (cache_holds_last_record
              [mkSetting 1 "locale" "en"; mkSetting 2 "locale" "de"] None "locale")
    as (Hlast & Hrecord & _).
  split; [rewrite Hlast; reflexivity|].
  apply Hrecord. reflexivity.
Defined.

Lemma default_does_not_rescue_bad_record_witness :
  (stored event_settings "presale_days" = Some "[1, 2]" /\
   fst (SettingsProxy.get event_settings "presale_days" (VInt 0) TInt)
   = Raise (Exn ValueError None)) /\
  (stored (SettingsProxy.__init__
             [mkSetting 1 "limit" (String "5" (String (ascii_of_nat 28) ""))] None)
          "limit"
   = Some (String "5" (String (ascii_of_nat 28) "")) /\
   fst (SettingsProxy.get
          (SettingsProxy.__init__
             [mkSetting 1 "limit" (String "5" (String (ascii_of_nat 28) ""))] None)
          "limit" (VInt 0) TInt)
   = Raise (Exn ValueError None)) /\
  (stored (SettingsProxy.__init__ [mkSetting 1 "limit" " -1_000 "] None) "limit"
   = Some " -1_000 " /\
   fst (SettingsProxy.get
          (SettingsProxy.__init__ [mkSetting 1 "limit" " -1_000 "] None)
          "limit" (VInt 0) TInt)
   = Ok (VInt (-1000))).
Proof.
  split; [|split]; (split; [reflexivity|]).
  - rewrite (default_does_not_rescue_bad_record
               event_settings "presale_days" "[1, 2]" (VInt 0) eq_refl).
    reflexivity.
  - rewrite (default_does_not_rescue_bad_record
               (SettingsProxy.__init__
                  [mkSetting 1 "limit" (String "5" (String (ascii_of_nat 28) ""))] None)
               "limit" (String "5" (String (ascii_of_nat 28) "")) (VInt 0) eq_refl).
    reflexivity.
  - rewrite (default_does_not_rescue_bad_record
               (SettingsProxy.__init__ [mkSetting 1 "limit" " -1_000 "] None)
               "limit" " -1_000 " (VInt 0) eq_refl).
    reflexivity.
Defined.

Lemma typed_read_has_the_type_witness :
  fst (SettingsProxy.get event_settings "max_items_per_order" VNone TInt)
  = Ok (VInt 10) /\
  isinstance (VInt 10) TInt = true.
Proof.
  split; [reflexivity|].
  apply (typed_read_has_the_type event_settings "max_items_per_order" VNone TInt (VInt 10));
    [left; reflexivity|reflexivity].
Defined.

Lemma other_keys_read_as_before_witness :
  "show_times" <> "presale_days" /\
  fst (SettingsProxy.get
         (snd (SettingsProxy.set event_settings "presale_days" (VInt 3)))
         "show_times" VNone TBool)
  = fst (SettingsProxy.get event_settings "show_times" VNone TBool) /\
  fst (SettingsProxy.get (SettingsProxy.__delitem__ event_settings "presale_days")
         "show_times" VNone TBool)
  = fst (SettingsProxy.get event_settings "show_times" VNone TBool).
Proof.
  assert (H : "show_times" <> "presale_days") by discriminate.
  split; [exact H|].
  apply (other_keys_read_as_before
           event_settings "presale_days" "show_times" (VInt 3) VNone TBool H).
Defined.

Lemma parent_value_is_inherited_witness :
  SettingsProxy._serialize (VInt 7) = Ok "7" /\
  fst (SettingsProxy.get
         (with_parent event_settings
            (snd (SettingsProxy.set organizer_settings "limit" (VInt 7))))
         "limit" VNone TInt)
  = Ok (VInt 7).
Proof.
  split; [reflexivity|].
  rewrite (parent_value_is_inherited
             event_settings organizer_settings "limit" (VInt 7) "7" VNone TInt eq_refl).
  reflexivity.
Defined.

Lemma cache_entries_keep_their_key_witness :
  keyed (SettingsProxy.__init__ [mkSetting 3 "presale_days" "[1, 2]"] None) /\
  keyed (snd (SettingsProxy.set
                (SettingsProxy.__init__ [mkSetting 3 "presale_days" "[1, 2]"] None)
                "presale_days" (VInt 3))).
Proof.
  destruct (cache_entries_keep_their_key (FO := integral_floats)) as [Hinit Hkeep].
  split; [apply Hinit|].
  apply (Hkeep _ (Hinit [mkSetting 3 "presale_days" "[1, 2]"] None)).
Defined.

Lemma view_keys_are_separate_witness :
  no_underscore "plugin" = true /\
  no_underscore "foo" = true /\
  SettingsSandbox._convert_key plugin_view "limit"
  = SettingsSandbox._convert_key
      (SettingsSandbox.__init__ "plugin" "foo" organizer_settings) "limit" /\
  SettingsSandbox._type plugin_view
  = SettingsSandbox._type (SettingsSandbox.__init__ "plugin" "foo" organizer_settings).
Proof.
  split; [reflexivity|]. split; [reflexivity|]. split; [reflexivity|].
  apply (proj2 (view_keys_are_separate
                  plugin_view (SettingsSandbox.__init__ "plugin" "foo" organizer_settings)
                  "limit" "limit")); reflexivity.
Defined.

Lemma views_meet_across_underscores_witness :
  SettingsProxy._serialize (VStr "on") = Ok "on" /\
  fst (SettingsSandbox.get
         (SettingsSandbox.__init__ "plugin_pay" "card"
            (SettingsSandbox._event
               (snd (SettingsSandbox.set
                       (SettingsSandbox.__init__ "plugin" "pay_card" organizer_settings)
                       "fee" (VStr "on")))))
         "fee" VNone TStr)
  = Ok (VStr "on").
Proof.
  split; [reflexivity|].
  apply (proj2 (views_meet_across_underscores organizer_settings "plugin" "pay" "card" "fee")
               (VStr "on") "on").
  reflexivity.
Defined.

Lemma view_read_after_write_witness :
  SettingsProxy._serialize (VInt 9) = Ok "9" /\
  fst (SettingsSandbox.get
         (snd (SettingsSandbox.set plugin_view "limit" (VInt 9))) "limit" VNone TInt)
  = Ok (VStr "9").
Proof.
  split; [reflexivity|].
  apply (proj1 (view_read_after_write plugin_view "limit" (VInt 9) VNone TInt) "9").
  reflexivity.
Defined.

Lemma public_attribute_is_a_setting_witness :
  starts_with_underscore "locale" = false /\
  among ProxyObject.methods "locale" = false /\
  SettingsProxy._serialize (VInt 3) = Ok "3" /\
  fst (ProxyObject.getattr
         (snd (ProxyObject.__setattr__
                 (ProxyObject.__init__ [] (Some organizer_settings)) "locale" (VInt 3)))
         "locale")
  = Done (AValue (VStr "3")).
Proof.
  split; [reflexivity|]. split; [reflexivity|]. split; [reflexivity|].
  apply (public_attribute_is_a_setting
           (ProxyObject.__init__ [] (Some organizer_settings)) "locale" (VInt 3) "3");
    [reflexivity|reflexivity|apply no_attributes_private|reflexivity].
Defined.

Lemma method_names_hide_settings_witness :
  SettingsProxy._serialize (VStr "x") = Ok "x" /\
  fst (SettingsProxy.__getitem__
         (ProxyObject.proxy
            (snd (ProxyObject.__setattr__
                    (ProxyObject.__init__ [] None) "get" (VStr "x"))))
         "get")
  = Ok (VStr "x") /\
  fst (ProxyObject.getattr
         (snd (ProxyObject.__setattr__ (ProxyObject.__init__ [] None) "get" (VStr "x")))
         "get")
  = Done (AMethod "get").
Proof.
  split; [reflexivity|].
  apply (method_names_hide_settings (ProxyObject.__init__ [] None) "get" (VStr "x") "x");
    [left; reflexivity|apply no_attributes_private|reflexivity].
Defined.

Lemma private_attribute_is_not_a_setting_witness :
  starts_with_underscore "_note" = true /\
  fst (ProxyObject.__setattr__ (ProxyObject.__init__ [] None) "_note" (VInt 1))
  = Done tt /\
  fst (ProxyObject.getattr
         (snd (ProxyObject.__setattr__ (ProxyObject.__init__ [] None) "_note" (VInt 1)))
         "_note")
  = Done (AValue (VInt 1)).
Proof.
  split; [reflexivity|]. split; [reflexivity|].
  apply (private_attribute_is_not_a_setting
           (ProxyObject.__init__ [] None) "_note" (VInt 1)); reflexivity.
Defined.

Lemma view_del_ignores_private_attribute_witness :
  starts_with_underscore "_note" = true /\
  fst (SandboxObject.__setattr__
         (SandboxObject.__init__ "plugin" "foo" plugin_event) "_note" (VInt 1))
  = Done tt /\
  fst (SandboxObject.getattr
         (snd (SandboxObject.__delattr__
                 (snd (SandboxObject.__setattr__
                         (SandboxObject.__init__ "plugin" "foo" plugin_event)
                         "_note" (VInt 1)))
                 "_note"))
         "_note")
  = Done (AValue (VInt 1)).
Proof.
  split; [reflexivity|]. split; [reflexivity|].
  apply (view_del_ignores_private_attribute
           (SandboxObject.__init__ "plugin" "foo" plugin_event) "_note" (VInt 1));
    reflexivity.
Defined.

Lemma attributes_stay_private_witness :
  private_attributes
    (ProxyObject.attributes
       (snd (ProxyObject.__setattr__ (ProxyObject.__init__ [] None) "_note" (VInt 1)))).
Proof.
  destruct (attributes_stay_private (FO := integral_floats)) as [Hinit Hkeep].
  apply (proj1 (Hkeep (ProxyObject.__init__ [] None) "_note" (Hinit [] None))).
Defined.

Lemma failed_set_writes_nothing_witness :
  fst (SettingsProxy.set event_settings "presale_days" VNone) <> Ok tt /\
  loaded (snd (SettingsProxy.set event_settings "presale_days" VNone))
  = loaded event_settings.
Proof.
  assert (H : fst (SettingsProxy.set event_settings "presale_days" VNone) <> Ok tt)
    by (intros H; discriminate H).
  split; [exact H|].
  apply (proj1 (failed_set_writes_nothing event_settings "presale_days" VNone)), H.
Defined.
